(** * A shallow embedding of the dress-site shop (Flask + SQLAlchemy)

    The development follows [tempCodeRunnerFile.py]: the three tables
    ([User], [Item], [Cart]), the session gate ([current_user],
    [login_required], [admin_required]) and the route handlers
    ([signup], [login], [admin], [admin_delete_item], [cart],
    [add_to_cart], [update_cart], [payment], [send_screenshot],
    [success]).

    Modelling conventions.
    - Python [int] is [Z]; Python [float] (and the [db.Float] column) is
      Rocq's primitive binary64 [float]; [str] is [string], read as a
      sequence of bytes, so the string built-ins ([strip], [lower],
      [int], [float]) are those of Python on ASCII text.
    - A table is the list of its rows in rowid order.  A new row gets the
      rowid SQLite gives an [INTEGER PRIMARY KEY]: one more than the
      largest rowid in use, or 1 in an empty table; it is appended.
    - A handler is a computation in a small state-and-exit monad over the
      [World] (database, session cookie, flashed messages, mail outbox).
      Leaving a view early ([return redirect(...)], [abort(404)], an
      uncaught exception) is the exit branch of the monad.
    - Every write of a handler is followed by [db.session.commit()] in
      the same handler and every early exit happens before the first
      write, so writes are applied to the database directly. *)

From Stdlib Require Import ZArith List String Ascii Bool Lia.
From Stdlib Require Import PrimFloat SpecFloat FloatOps.
Import ListNotations.
Open Scope string_scope.
Open Scope Z_scope.

(* ================================================================== *)
(** ** Python built-ins used by the handlers *)
(* ================================================================== *)

Module Py.

(** [str.isspace] on one ASCII character: TAB..CR, FS..US and SPACE. *)
Definition isspace (c : ascii) : bool :=
  let n := Z.of_N (N_of_ascii c) in
  ((9 <=? n) && (n <=? 13)) || ((28 <=? n) && (n <=? 32)).

(** [s.lstrip(chars)], [s.rstrip(chars)] and [s.strip(chars)], the set of
    characters given as a predicate. *)
Fixpoint lstrip_by (p : ascii -> bool) (s : string) : string :=
  match s with
  | String c s' => if p c then lstrip_by p s' else s
  | EmptyString => EmptyString
  end.

Fixpoint rstrip_by (p : ascii -> bool) (s : string) : string :=
  match s with
  | String c s' =>
      match rstrip_by p s' with
      | EmptyString => if p c then EmptyString else String c EmptyString
      | r => String c r
      end
  | EmptyString => EmptyString
  end.

Definition strip_by (p : ascii -> bool) (s : string) : string :=
  rstrip_by p (lstrip_by p s).

(** [s.strip()] *)
Definition strip (s : string) : string := strip_by isspace s.

(** Truth value of a [str]: non-empty. *)
Definition truthy (s : string) : bool :=
  match s with EmptyString => false | String _ _ => true end.

Definition lower_ascii (c : ascii) : ascii :=
  let n := N_of_ascii c in
  if ((65 <=? n) && (n <=? 90))%N then ascii_of_N (n + 32) else c.

(** [s.lower()]; bytes outside A..Z are left as they are. *)
Fixpoint lower (s : string) : string :=
  match s with
  | String c s' => String (lower_ascii c) (lower s')
  | EmptyString => EmptyString
  end.

(** [sep in s] for a one-character [sep]. *)
Fixpoint contains (sep : ascii) (s : string) : bool :=
  match s with
  | String c s' => Ascii.eqb c sep || contains sep s'
  | EmptyString => false
  end.

(** The text after the last [sep], when [s] has one. *)
Fixpoint after_last (sep : ascii) (s : string) : option string :=
  match s with
  | String c s' =>
      match after_last sep s' with
      | Some t => Some t
      | None => if Ascii.eqb c sep then Some s' else None
      end
  | EmptyString => None
  end.

(** [s.rsplit(sep, 1)[-1]] *)
Definition rsplit1_last (sep : ascii) (s : string) : string :=
  match after_last sep s with
  | Some t => t
  | None => s
  end.

(** [x in xs] for a list of strings. *)
Definition str_in (x : string) (xs : list string) : bool :=
  existsb (String.eqb x) xs.

(** *** Numeric literals *)

Definition digit_val (c : ascii) : option Z :=
  let n := Z.of_N (N_of_ascii c) in
  if (48 <=? n) && (n <=? 57) then Some (n - 48) else None.

(** Reads the longest prefix of the form digit (["_"] digit)* given the
    digits read so far: their value, their number, and what is left. *)
Fixpoint scan_digits (s : string) (acc : Z) (n : Z) : Z * Z * string :=
  match s with
  | String c s' =>
      match digit_val c with
      | Some d => scan_digits s' (10 * acc + d) (n + 1)
      | None =>
          if Ascii.eqb c "_" then
            match s' with
            | String c2 s'' =>
                match digit_val c2, n =? 0 with
                | Some d, false => scan_digits s'' (10 * acc + d) (n + 1)
                | _, _ => (acc, n, s)
                end
            | EmptyString => (acc, n, s)
            end
          else (acc, n, s)
      end
  | EmptyString => (acc, n, s)
  end.

(** An optional sign: [true] for "-". *)
Definition scan_sign (s : string) : bool * string :=
  match s with
  | String "-" s' => (true, s')
  | String "+" s' => (false, s')
  | _ => (false, s)
  end.

(** [int(s)] for a [str] in base 10; [None] is [ValueError]. *)
Definition int (s : string) : option Z :=
  let '(neg, t) := scan_sign (strip s) in
  let '(v, n, rest) := scan_digits t 0 0 in
  if (0 <? n) && negb (truthy rest)
  then Some (if neg then - v else v)
  else None.

(** [float(z)] for an [int], and the coercion of the [int] operand of a
    mixed [float * int]: rounded to nearest, ties to even; [None] is
    [OverflowError] (the rounded value does not fit a double). *)
Definition float_of_int (z : Z) : option float :=
  match binary_normalize prec emax z 0 false with
  | S754_infinity _ => None
  | sf => Some (SF2Prim sf)
  end.

(** The double nearest to [(-1)^neg * m * 10^e], [0 <= m]. *)
Definition float_of_decimal (neg : bool) (m e : Z) : float :=
  let sgn (x : Z) := if neg then - x else x in
  if m =? 0 then SF2Prim (S754_zero neg)
  else if 0 <=? e then
    SF2Prim (binary_normalize prec emax (sgn (m * 10 ^ e)) 0 neg)
  else
    let d := 10 ^ (- e) in
    let s := Z.max 0 (64 + Z.log2 d - Z.log2 m) in
    let num := m * 2 ^ s in
    let q := num / d in
    let sticky := if num mod d =? 0 then 0 else 1 in
    SF2Prim (binary_normalize prec emax (sgn (2 * q + sticky)) (- (s + 1)) neg).

(** The exponent part of a decimal literal: nothing, or [e] / [E], an
    optional sign and digits.  [None] when what follows is neither. *)
Definition scan_exponent (s : string) : option Z :=
  match s with
  | EmptyString => Some 0
  | String c s' =>
      if Ascii.eqb (lower_ascii c) "e" then
        let '(neg, t) := scan_sign s' in
        let '(v, n, rest) := scan_digits t 0 0 in
        if (0 <? n) && negb (truthy rest)
        then Some (if neg then - v else v)
        else None
      else None
  end.

(** [float(s)] for a [str]; [None] is [ValueError]. *)
Definition float (s : string) : option PrimFloat.float :=
  let '(neg, t) := scan_sign (strip s) in
  let sgn (x : PrimFloat.float) := if neg then PrimFloat.opp x else x in
  let name := lower t in
  if str_in name ["inf"; "infinity"] then Some (sgn infinity)
  else if String.eqb name "nan" then Some nan
  else
    let '(m1, n1, rest1) := scan_digits t 0 0 in
    let '(m2, n2, rest2) :=
      match rest1 with
      | String "." r =>
          match r with
          | String c _ =>
              match digit_val c with
              | Some _ => let '(m, n, r') := scan_digits r m1 0 in (m, n, r')
              | None => (m1, 0, r)
              end
          | EmptyString => (m1, 0, r)
          end
      | _ => (m1, 0, rest1)
      end in
    if 0 <? n1 + n2 then
      match scan_exponent rest2 with
      | Some e => Some (float_of_decimal neg m2 (e - n2))
      | None => None
      end
    else None.

(** [x * n] for a [float] and an [int]: the [int] is coerced first. *)
Definition mul_float_int (x : PrimFloat.float) (n : Z) : option PrimFloat.float :=
  match float_of_int n with
  | Some k => Some (PrimFloat.mul x k)
  | None => None
  end.

(** [float(v or 0)] for a [str] [v]: the empty string is falsy. *)
Definition float_or_0 (v : string) : option PrimFloat.float :=
  if truthy v then float v else float_of_int 0.

(** [int(v or 1)] for a [str] [v]. *)
Definition int_or_1 (v : string) : option Z :=
  if truthy v then int v else Some 1.

(** [form.get(key, default)] on a field that may be missing. *)
Definition get (field : option string) (default : string) : string :=
  match field with
  | Some v => v
  | None => default
  end.

End Py.

(* ================================================================== *)
(** ** Models: the three tables *)
(* ================================================================== *)

(** [werkzeug.security]: the salted hash is kept symbolic.  The only
    property the handlers rely on is that a hash checks against the
    password it was generated from and against no other. *)
Inductive pw_hash : Type := Hashed (p : string).

Definition generate_password_hash (p : string) : pw_hash := Hashed p.

Definition check_password_hash (h : pw_hash) (p : string) : bool :=
  match h with Hashed q => String.eqb q p end.

Module User.
Record t : Type := make
  { id : Z;
    username : string;
    password_hash : pw_hash;
    is_admin : bool;
    created_at : Z }.

Definition check_password (self : t) (p : string) : bool :=
  check_password_hash (password_hash self) p.
End User.

Module Item.
Record t : Type := make
  { id : Z;
    name : string;
    price : float;
    image_url : string;
    created_at : Z }.
End Item.

(** The columns of [Cart] are nullable in the schema, but no handler ever
    stores NULL in them, so they are plain integers here. *)
Module Cart.
Record t : Type := make
  { id : Z;
    user_id : Z;
    item_id : Z;
    quantity : Z }.

Definition with_quantity (q : Z) (self : t) : t :=
  make (id self) (user_id self) (item_id self) q.
End Cart.

Record DB : Type := mkDB
  { users : list User.t;
    items : list Item.t;
    carts : list Cart.t }.

(** The rowid SQLite assigns to an inserted row. *)
Definition next_rowid (ids : list Z) : Z :=
  match ids with
  | [] => 1
  | x :: xs => fold_right Z.max x xs + 1
  end.

(** *** Queries *)

(** [User.query.get(uid)] *)
Definition User_get (d : DB) (uid : Z) : option User.t :=
  find (fun u => User.id u =? uid) (users d).

(** [User.query.filter_by(username=uname).first()] *)
Definition User_by_username (d : DB) (uname : string) : option User.t :=
  find (fun u => String.eqb (User.username u) uname) (users d).

(** [Item.query.get(item_id)] *)
Definition Item_get (d : DB) (item_id : Z) : option Item.t :=
  find (fun i => Item.id i =? item_id) (items d).

(** [Cart.query.get(cart_id)] *)
Definition Cart_get (d : DB) (cart_id : Z) : option Cart.t :=
  find (fun c => Cart.id c =? cart_id) (carts d).

(** [Cart.query.filter_by(user_id=uid).all()] *)
Definition Cart_of_user (d : DB) (uid : Z) : list Cart.t :=
  filter (fun c => Cart.user_id c =? uid) (carts d).

(** [Cart.query.filter_by(user_id=uid, item_id=iid).first()] *)
Definition Cart_first (d : DB) (uid iid : Z) : option Cart.t :=
  find (fun c => (Cart.user_id c =? uid) && (Cart.item_id c =? iid)) (carts d).

(** *** Writes *)

(** [db.session.add(User(username=..., is_admin=...))] after [set_password] *)
Definition add_User (uname : string) (h : pw_hash) (adm : bool) (now : Z)
    (d : DB) : DB :=
  mkDB (users d ++ [User.make (next_rowid (map User.id (users d))) uname h adm now])
       (items d) (carts d).

(** [db.session.add(Item(name=..., price=..., image_url=...))] *)
Definition add_Item (name : string) (price : float) (image_url : string)
    (now : Z) (d : DB) : DB :=
  mkDB (users d)
       (items d ++ [Item.make (next_rowid (map Item.id (items d))) name price image_url now])
       (carts d).

(** [db.session.add(Cart(user_id=..., item_id=..., quantity=...))] *)
Definition add_Cart (uid iid q : Z) (d : DB) : DB :=
  mkDB (users d) (items d)
       (carts d ++ [Cart.make (next_rowid (map Cart.id (carts d))) uid iid q]).

(** [row.quantity = q] on a loaded row: UPDATE cart SET quantity = q
    WHERE id = row.id *)
Definition set_Cart_quantity (row : Cart.t) (q : Z) (d : DB) : DB :=
  mkDB (users d) (items d)
       (map (fun c => if Cart.id c =? Cart.id row then Cart.with_quantity q c else c)
            (carts d)).

(** [db.session.delete(row)]: DELETE FROM cart WHERE id = row.id *)
Definition delete_Cart (row : Cart.t) (d : DB) : DB :=
  mkDB (users d) (items d)
       (filter (fun c => negb (Cart.id c =? Cart.id row)) (carts d)).

(** [db.session.delete(item)]: DELETE FROM item WHERE id = item.id *)
Definition delete_Item (item : Item.t) (d : DB) : DB :=
  mkDB (users d)
       (filter (fun i => negb (Item.id i =? Item.id item)) (items d))
       (carts d).

(** [Cart.query.filter_by(item_id=iid).delete()] *)
Definition delete_Cart_by_item (iid : Z) (d : DB) : DB :=
  mkDB (users d) (items d)
       (filter (fun c => negb (Cart.item_id c =? iid)) (carts d)).

(** [Cart.query.filter_by(user_id=uid).delete()] *)
Definition delete_Cart_by_user (uid : Z) (d : DB) : DB :=
  mkDB (users d) (items d)
       (filter (fun c => negb (Cart.user_id c =? uid)) (carts d)).

(** Items newest first: [order_by(Item.created_at.desc())], rows of equal
    time kept in rowid order. *)
Fixpoint insert_desc (i : Item.t) (l : list Item.t) : list Item.t :=
  match l with
  | [] => [i]
  | j :: l' =>
      if Item.created_at j <? Item.created_at i then i :: l
      else j :: insert_desc i l'
  end.

Definition order_by_created_at_desc (l : list Item.t) : list Item.t :=
  fold_left (fun acc i => insert_desc i acc) l [].

(* ================================================================== *)
(** ** Requests, responses and the handler monad *)
(* ================================================================== *)

Inductive Method : Type := GET | POST.

(** An uploaded file ([werkzeug.FileStorage]). *)
Record FileStorage : Type := mkFile
  { filename : string;
    content : string }.

Record Request : Type := mkRequest
  { method : Method;
    form : string -> option string;
    files : string -> option FileStorage;
    utcnow : Z }.

(** [request.form.get(key, default)] *)
Definition form_get (req : Request) (key default : string) : string :=
  Py.get (form req key) default.

(** A form given by its fields; the first binding of a key wins. *)
Fixpoint fields (l : list (string * string)) (key : string) : option string :=
  match l with
  | [] => None
  | (k, v) :: l' => if String.eqb k key then Some v else fields l' key
  end.

Definition no_files (key : string) : option FileStorage := None.

(** One row of the cart page. *)
Module Line.
Record t : Type := make
  { cart_id : Z;
    item_id : Z;
    name : string;
    price : float;
    quantity : Z;
    image_url : string;
    line_total : float }.
End Line.

(** The keyword arguments of [render_template]. *)
Inductive context : Type :=
| NoContext
| UserContext (user : option User.t)
| ItemsContext (items : list Item.t) (user : option User.t)
| CartContext (cart_items : list Line.t) (total : float).

Inductive response : Type :=
| Redirect (endpoint : string)              (* redirect(url_for(endpoint)) *)
| Render (template : string) (ctx : context) (* render_template(...) *)
| Abort (status : Z)                         (* abort(status) *)
| Raised (exn : string).                     (* uncaught exception: 500 *)

(** A message handed to Flask-Mail. *)
Record Message : Type := mkMessage
  { subject : string;
    recipients : list string;
    body : string;
    attachments : list (string * string * string) }.

Record World : Type := mkWorld
  { db : DB;
    session : option Z;               (* session.get('user_id') *)
    flashes : list (string * string); (* (message, category), oldest first *)
    outbox : list Message }.

(** State over [World], with an exit that carries the response. *)
Definition M (A : Type) : Type := World -> (A + response) * World.

Definition ret {A : Type} (a : A) : M A := fun w => (inl a, w).

Definition bind {A B : Type} (m : M A) (k : A -> M B) : M B :=
  fun w =>
    match m w with
    | (inl a, w') => k a w'
    | (inr r, w') => (inr r, w')
    end.

Definition exit {A : Type} (r : response) : M A := fun w => (inr r, w).

Notation "x <- m ;; k" := (bind m (fun x => k))
  (at level 61, m at next level, right associativity).
Notation "m ;; k" := (bind m (fun _ => k))
  (at level 61, right associativity).

(** Serving a request: the response and the world it leaves. *)
Definition run (view : M response) (w : World) : response * World :=
  match view w with
  | (inl r, w') => (r, w')
  | (inr r, w') => (r, w')
  end.

Definition gets {A : Type} (f : World -> A) : M A := fun w => (inl (f w), w).

Definition query {A : Type} (q : DB -> A) : M A := gets (fun w => q (db w)).

Definition write (f : DB -> DB) : M unit :=
  fun w => (inl tt, mkWorld (f (db w)) (session w) (flashes w) (outbox w)).

(** [db.session.commit()] *)
Definition commit : M unit := ret tt.

(** [flash(message, category)] *)
Definition flash (message category : string) : M unit :=
  fun w => (inl tt, mkWorld (db w) (session w)
                            (flashes w ++ [(message, category)]) (outbox w)).

(** [session['user_id'] = uid], [session.pop('user_id', None)] *)
Definition set_session (s : option Z) : M unit :=
  fun w => (inl tt, mkWorld (db w) s (flashes w) (outbox w)).

(** [mail.send(msg)] when the transport accepts the message. *)
Definition deliver (msg : Message) : M unit :=
  fun w => (inl tt, mkWorld (db w) (session w) (flashes w) (outbox w ++ [msg])).

(** [Model.query.get_or_404(id)] *)
Definition get_or_404 {A : Type} (q : DB -> option A) : M A :=
  r <- query q ;;
  match r with
  | Some a => ret a
  | None => exit (Abort 404)
  end.

(** A built-in that raises [exn] where the model returns [None]. *)
Definition raising {A : Type} (exn : string) (o : option A) : M A :=
  match o with
  | Some a => ret a
  | None => exit (Raised exn)
  end.

(* ================================================================== *)
(** ** Helpers *)
(* ================================================================== *)

Definition current_user : M (option User.t) :=
  uid <- gets session ;;
  match uid with
  | None => ret None
  | Some uid =>
      if uid =? 0 then ret None          (* [if not uid] *)
      else query (fun d => User_get d uid)
  end.

(** [current_user().attr]: attribute access on what may be [None]. *)
Definition the_current_user : M User.t :=
  u <- current_user ;;
  raising "AttributeError" u.

Definition login_required (view_func : M response) : M response :=
  u <- current_user ;;
  match u with
  | None =>
      flash "Please login first." "warn" ;;
      ret (Redirect "login")
  | Some _ => view_func
  end.

Definition admin_required (view_func : M response) : M response :=
  u <- current_user ;;
  match u with
  | Some user =>
      if User.is_admin user then view_func
      else flash "Admin access required." "error" ;; ret (Redirect "items")
  | None =>
      flash "Admin access required." "error" ;;
      ret (Redirect "items")
  end.

(* ================================================================== *)
(** ** Routes *)
(* ================================================================== *)

Definition home : M response :=
  u <- current_user ;;
  ret (Render "index.html" (UserContext u)).

(** *** Auth *)

Definition signup (req : Request) : M response :=
  match method req with
  | POST =>
      let uname := Py.strip (form_get req "username" "") in
      let pwd := Py.strip (form_get req "password" "") in
      if negb (Py.truthy uname) || negb (Py.truthy pwd) then
        flash "Username and password are required." "error" ;;
        ret (Redirect "signup")
      else
        existing <- query (fun d => User_by_username d uname) ;;
        match existing with
        | Some _ =>
            flash "Username already exists." "error" ;;
            ret (Redirect "signup")
        | None =>
            write (add_User uname (generate_password_hash pwd)
                            (String.eqb (Py.lower uname) "admin") (utcnow req)) ;;
            commit ;;
            flash "Signup successful. Please login." "ok" ;;
            ret (Redirect "login")
        end
  | GET => ret (Render "signup.html" NoContext)
  end.

Definition login (req : Request) : M response :=
  match method req with
  | POST =>
      let uname := Py.strip (form_get req "username" "") in
      let pwd := Py.strip (form_get req "password" "") in
      u <- query (fun d => User_by_username d uname) ;;
      match u with
      | Some u =>
          if User.check_password u pwd then
            set_session (Some (User.id u)) ;;
            flash "Logged in!" "ok" ;;
            ret (Redirect "items")
          else
            flash "Invalid credentials." "error" ;;
            ret (Render "login.html" NoContext)
      | None =>
          flash "Invalid credentials." "error" ;;
          ret (Render "login.html" NoContext)
      end
  | GET => ret (Render "login.html" NoContext)
  end.

Definition logout : M response :=
  set_session None ;;
  flash "Logged out." "ok" ;;
  ret (Redirect "login").

(** *** Items (shop) *)

(** The view [items]; the table has the name here. *)
Definition items_page : M response :=
  l <- query (fun d => order_by_created_at_desc (items d)) ;;
  u <- current_user ;;
  ret (Render "items.html" (ItemsContext l u)).

(** *** Admin page: add/delete items *)

Definition admin (req : Request) : M response :=
  admin_required
    match method req with
    | POST =>
        let name := Py.strip (form_get req "name" "") in
        price <- raising "ValueError" (Py.float_or_0 (form_get req "price" "0")) ;;
        let image_url := Py.strip (form_get req "image_url" "") in
        (if negb (Py.truthy name) then
           flash "Item name is required." "error"
         else
           write (add_Item name price image_url (utcnow req)) ;;
           commit ;;
           flash "Item added." "ok") ;;
        ret (Redirect "admin")
    | GET =>
        l <- query (fun d => order_by_created_at_desc (items d)) ;;
        u <- current_user ;;
        ret (Render "admin.html" (ItemsContext l u))
    end.

Definition admin_delete_item (item_id : Z) : M response :=
  admin_required
    (item <- get_or_404 (fun d => Item_get d item_id) ;;
     write (delete_Item item) ;;
     write (delete_Cart_by_item item_id) ;;
     commit ;;
     flash "Item deleted." "ok" ;;
     ret (Redirect "admin")).

(** *** Cart *)

(** The loop of [cart], with its two accumulators; [None] is the
    [OverflowError] of the product. *)
Fixpoint cart_loop (d : DB) (entries : list Cart.t)
    (cart_items : list Line.t) (total : float) : option (list Line.t * float) :=
  match entries with
  | [] => Some (cart_items, total)
  | e :: entries' =>
      match Item_get d (Cart.item_id e) with
      | None => cart_loop d entries' cart_items total   (* continue *)
      | Some item =>
          match Py.mul_float_int (Item.price item) (Z.max 1 (Cart.quantity e)) with
          | None => None
          | Some line_total =>
              cart_loop d entries'
                (cart_items ++
                   [Line.make (Cart.id e) (Item.id item) (Item.name item)
                      (Item.price item) (Cart.quantity e) (Item.image_url item)
                      line_total])
                (PrimFloat.add total line_total)
          end
      end
  end.

Definition cart : M response :=
  login_required
    (user <- the_current_user ;;
     entries <- query (fun d => Cart_of_user d (User.id user)) ;;
     d <- gets db ;;
     r <- raising "OverflowError" (cart_loop d entries [] 0%float) ;;
     ret (Render "cart.html" (CartContext (fst r) (snd r)))).

Definition add_to_cart (item_id : Z) : M response :=
  login_required
    (user <- the_current_user ;;
     item <- get_or_404 (fun d => Item_get d item_id) ;;
     row <- query (fun d => Cart_first d (User.id user) (Item.id item)) ;;
     match row with
     | Some row => write (set_Cart_quantity row (Cart.quantity row + 1))
     | None => write (add_Cart (User.id user) (Item.id item) 1)
     end ;;
     commit ;;
     flash ("Added " ++ Item.name item ++ " to cart.") "ok" ;;
     ret (Redirect "items")).

Definition update_cart (req : Request) (cart_id : Z) : M response :=
  login_required
    (q <- raising "ValueError" (Py.int_or_1 (form_get req "quantity" "1")) ;;
     row <- get_or_404 (fun d => Cart_get d cart_id) ;;
     (if q <=? 0 then write (delete_Cart row)
      else write (set_Cart_quantity row q)) ;;
     commit ;;
     flash "Cart updated." "ok" ;;
     ret (Redirect "cart")).

(** *** Payment flow *)

Definition payment (req : Request) : M response :=
  login_required
    match method req with
    | POST =>
        flash "Payment marked as completed. Please upload the screenshot." "ok" ;;
        ret (Redirect "send_screenshot")
    | GET => ret (Render "payment.html" NoContext)
    end.

(** Lines 271-272: the MIME type of the attachment, from the sanitized
    file name. *)
Definition attachment_mime (filename : string) : string :=
  let ext :=
    if Py.contains "." filename
    then Py.rsplit1_last "." (Py.lower filename)
    else "png" in
  "image/" ++ (if Py.str_in ext ["jpg"; "jpeg"] then "jpeg" else ext).

(** What the outside world does during one upload: whether [f.save]
    raises, and whether anything in the [try] block (opening the saved
    file, [mail.send]) raises, with the exception's text. *)
Record IO : Type := mkIO
  { save_raises : option string;
    relay_raises : option string }.

Section Checkout.

(** [ADMIN_EMAIL] comes from the process environment and
    [secure_filename] from werkzeug. *)
Variable ADMIN_EMAIL : string.
Variable secure_filename : string -> string.

Definition send_screenshot (req : Request) (io : IO) : M response :=
  login_required
    match method req with
    | POST =>
        match files req "screenshot" with
        | Some f =>
            if String.eqb (filename f) "" then
              flash "Please select an image file." "error" ;;
              ret (Redirect "send_screenshot")
            else
              let filename := secure_filename (filename f) in
              match save_raises io with
              | Some e => exit (Raised e)
              | None =>
                  u <- current_user ;;
                  match u, relay_raises io with
                  | Some user, None =>
                      deliver
                        (mkMessage "Payment Screenshot" [ADMIN_EMAIL]
                           ("User " ++ User.username user
                              ++ " uploaded a payment screenshot.")
                           [(filename, attachment_mime filename, content f)]) ;;
                      flash "Screenshot sent to admin email!" "ok"
                  | Some _, Some e =>
                      flash ("Email send simulated (or failed): " ++ e) "warn"
                  | None, _ =>
                      flash ("Email send simulated (or failed): "
                               ++ "'NoneType' object has no attribute 'username'")
                            "warn"
                  end ;;
                  ret (Redirect "success")
              end
        | None =>
            flash "Please select an image file." "error" ;;
            ret (Redirect "send_screenshot")
        end
    | GET => ret (Render "send_screenshot.html" NoContext)
    end.

End Checkout.

Definition success : M response :=
  login_required
    (user <- the_current_user ;;
     write (delete_Cart_by_user (User.id user)) ;;
     commit ;;
     ret (Render "success.html" NoContext)).

(** *** Bootstrapping *)

Definition seed_data (now : Z) : M unit :=
  nu <- query (fun d => Z.of_nat (List.length (users d))) ;;
  (if nu =? 0 then
     write (add_User "admin" (generate_password_hash "admin123") true now) ;;
     write (add_User "user" (generate_password_hash "user123") false now)
   else ret tt) ;;
  ni <- query (fun d => Z.of_nat (List.length (items d))) ;;
  (if ni =? 0 then
     write (add_Item "Red Summer Dress" 1299%float
              "https://images.unsplash.com/photo-1542060748-10c28b62716c" now) ;;
     write (add_Item "Classic Black Gown" 2499%float
              "https://images.unsplash.com/photo-1519741497674-611481863552" now) ;;
     write (add_Item "Floral Casual Dress" 1599%float
              "https://images.unsplash.com/photo-1512436991641-6745cdb1723f" now)
   else ret tt) ;;
  commit.

Definition empty_world : World := mkWorld (mkDB [] [] []) None [] [].

(** The world after [db.create_all(); seed_data()] at time 0. *)
Definition seeded : World := snd (seed_data 0 empty_world).


(* ================================================================== *)
(** ** The URL map *)
(* ================================================================== *)

(** The rules registered with [@app.route], with the value of their
    [<int:...>] converter (an unsigned decimal).  The rule
    [/uploads/<path:filename>] reads the upload folder, which is not part
    of the [World], and is left out. *)
Inductive Route : Type :=
| url_home                          (* /                          *)
| url_signup                        (* /signup                    *)
| url_login                         (* /login                     *)
| url_logout                        (* /logout                    *)
| url_items                         (* /items                     *)
| url_admin                         (* /admin                     *)
| url_admin_delete (item_id : N)    (* /admin/delete/<int:item_id> *)
| url_cart                          (* /cart                      *)
| url_add_to_cart (item_id : N)     (* /add-to-cart/<int:item_id> *)
| url_cart_update (cart_id : N)     (* /cart/update/<int:cart_id> *)
| url_payment                       (* /payment                   *)
| url_send_screenshot               (* /send-screenshot           *)
| url_success.                      (* /success                   *)

(** The [methods=] of each rule; a rule without it takes GET. *)
Definition allows (r : Route) (m : Method) : bool :=
  match r, m with
  | url_home, GET | url_logout, GET | url_items, GET
  | url_cart, GET | url_success, GET => true
  | url_signup, _ | url_login, _ | url_admin, _
  | url_payment, _ | url_send_screenshot, _ => true
  | url_admin_delete _, POST | url_add_to_cart _, POST
  | url_cart_update _, POST => true
  | _, _ => false
  end.

Section UrlMap.

Variable ADMIN_EMAIL : string.
Variable secure_filename : string -> string.

(** The view function a rule is bound to. *)
Definition view_of (r : Route) (req : Request) (io : IO) : M response :=
  match r with
  | url_home => home
  | url_signup => signup req
  | url_login => login req
  | url_logout => logout
  | url_items => items_page
  | url_admin => admin req
  | url_admin_delete item_id => admin_delete_item (Z.of_N item_id)
  | url_cart => cart
  | url_add_to_cart item_id => add_to_cart (Z.of_N item_id)
  | url_cart_update cart_id => update_cart req (Z.of_N cart_id)
  | url_payment => payment req
  | url_send_screenshot => send_screenshot ADMIN_EMAIL secure_filename req io
  | url_success => success
  end.

(** Dispatch: a method the rule does not list is answered 405 before any
    view runs. *)
Definition dispatch (r : Route) (req : Request) (io : IO) : M response :=
  if allows r (method req) then view_of r req io else exit (Abort 405).

(** Serving a request: the world it leaves. *)
Definition serve (r : Route) (req : Request) (io : IO) (w : World) : World :=
  snd (run (dispatch r req io) w).

(** A browsing session: the requests served one after the other. *)
Fixpoint serve_all (l : list (Route * Request * IO)) (w : World) : World :=
  match l with
  | [] => w
  | (r, req, io) :: l' => serve_all l' (serve r req io w)
  end.

End UrlMap.

(** The rules whose view is wrapped in [@login_required], respectively
    [@admin_required]. *)
Definition login_protected (r : Route) : bool :=
  match r with
  | url_cart | url_add_to_cart _ | url_cart_update _
  | url_payment | url_send_screenshot | url_success => true
  | _ => false
  end.

Definition admin_protected (r : Route) : bool :=
  match r with
  | url_admin | url_admin_delete _ => true
  | _ => false
  end.

(** The worlds the application can be in: the empty database of
    [db.create_all()], and from there any sequence of starts (each runs
    [seed_data]) and of requests. *)
Inductive reachable (ADMIN_EMAIL : string) (secure_filename : string -> string)
    : World -> Prop :=
| reach_created : reachable ADMIN_EMAIL secure_filename empty_world
| reach_start (w : World) (now : Z) :
    reachable ADMIN_EMAIL secure_filename w ->
    reachable ADMIN_EMAIL secure_filename (snd (seed_data now w))
| reach_serve (w : World) (r : Route) (req : Request) (io : IO) :
    reachable ADMIN_EMAIL secure_filename w ->
    reachable ADMIN_EMAIL secure_filename
              (serve ADMIN_EMAIL secure_filename r req io w).

(* ================================================================== *)
(** ** Specification vocabulary *)
(* ================================================================== *)

(** The user the session gate sees: what [current_user()] returns. *)
Definition session_user (w : World) : option User.t :=
  match fst (current_user w) with
  | inl u => u
  | inr _ => None
  end.


(** Primary keys: no two rows of a table share an id. *)
Fixpoint distinct (l : list Z) : bool :=
  match l with
  | [] => true
  | x :: l' => negb (existsb (Z.eqb x) l') && distinct l'
  end.

Definition pk_unique (d : DB) : Prop :=
  NoDup (map User.id (users d)) /\
  NoDup (map Item.id (items d)) /\
  NoDup (map Cart.id (carts d)).

(** The Cart Ledger invariant of the data model: at most one entry per
    (user, item) pair. *)
Definition entry_for (uid iid : Z) (c : Cart.t) : bool :=
  (Cart.user_id c =? uid) && (Cart.item_id c =? iid).

Definition one_entry_per_pair (d : DB) : Prop :=
  forall uid iid, (List.length (filter (entry_for uid iid) (carts d)) <= 1)%nat.

(** *** [viewCart], in the words of the specification

    Each entry of the user is joined against the catalog; an entry whose
    item is gone is skipped; [lineTotal = price * max(1, quantity)];
    [total] is the sum of the line totals, accumulated from [0.0] in
    entry order. *)
Definition join (d : DB) (entries : list Cart.t) : list (Cart.t * Item.t) :=
  flat_map (fun e =>
              match Item_get d (Cart.item_id e) with
              | Some item => [(e, item)]
              | None => []
              end) entries.

Definition lineTotal (e : Cart.t) (item : Item.t) : option float :=
  Py.mul_float_int (Item.price item) (Z.max 1 (Cart.quantity e)).

Definition line_of (e : Cart.t) (item : Item.t) (t : float) : Line.t :=
  Line.make (Cart.id e) (Item.id item) (Item.name item) (Item.price item)
            (Cart.quantity e) (Item.image_url item) t.

Fixpoint lines_of (joined : list (Cart.t * Item.t)) : option (list Line.t) :=
  match joined with
  | [] => Some []
  | (e, item) :: rest =>
      match lineTotal e item, lines_of rest with
      | Some t, Some ls => Some (line_of e item t :: ls)
      | _, _ => None
      end
  end.

Definition sum_from (start : float) (l : list float) : float :=
  fold_left PrimFloat.add l start.

Definition view_entries (d : DB) (entries : list Cart.t)
    : option (list Line.t * float) :=
  match lines_of (join d entries) with
  | Some ls => Some (ls, sum_from 0%float (map Line.line_total ls))
  | None => None
  end.

Definition viewCart (d : DB) (uid : Z) : option (list Line.t * float) :=
  view_entries d (Cart_of_user d uid).

(** The page (or the failure) a view of the cart turns into. *)
Definition cart_page (v : option (list Line.t * float)) : response :=
  match v with
  | Some (ls, t) => Render "cart.html" (CartContext ls t)
  | None => Raised "OverflowError"
  end.

(** Whether the item an entry refers to is still in the catalog. *)
Definition item_exists (d : DB) (e : Cart.t) : bool :=
  match Item_get d (Cart.item_id e) with
  | Some _ => true
  | None => false
  end.

(** What a line of the page says about the entry it comes from. *)
Definition line_for (d : DB) (e : Cart.t) (l : Line.t) : Prop :=
  exists item k,
    Item_get d (Cart.item_id e) = Some item /\
    Py.float_of_int (Z.max 1 (Cart.quantity e)) = Some k /\
    l = Line.make (Cart.id e) (Item.id item) (Item.name item) (Item.price item)
          (Cart.quantity e) (Item.image_url item)
          (PrimFloat.mul (Item.price item) k).

(** Whether an [int] converts to a [float] without [OverflowError]. *)
Definition fits_float (z : Z) : bool :=
  match Py.float_of_int z with
  | Some _ => true
  | None => false
  end.

(** *** Equality of identifiers up to the case of ASCII letters *)

Definition is_upper (c : ascii) : bool :=
  let n := N_of_ascii c in ((65 <=? n) && (n <=? 90))%N.

Definition same_letter (a b : ascii) : bool :=
  Ascii.eqb a b
  || (is_upper a && (N_of_ascii b =? N_of_ascii a + 32)%N)
  || (is_upper b && (N_of_ascii a =? N_of_ascii b + 32)%N).

Fixpoint eq_nocase (s t : string) : bool :=
  match s, t with
  | EmptyString, EmptyString => true
  | String a s', String b t' => same_letter a b && eq_nocase s' t'
  | _, _ => false
  end.

Fixpoint no_upper (t : string) : bool :=
  match t with
  | String c t' => negb (is_upper c) && no_upper t'
  | EmptyString => true
  end.

(** The message [send_screenshot] hands to the mail transport. *)
Definition screenshot_message (ADMIN_EMAIL : string) (user : User.t)
    (name : string) (f : FileStorage) : Message :=
  mkMessage "Payment Screenshot" [ADMIN_EMAIL]
    ("User " ++ User.username user ++ " uploaded a payment screenshot.")
    [(name, attachment_mime name, content f)].

(** *** [werkzeug.utils.secure_filename], on ASCII names (POSIX)

    "/" becomes a space; the name is split at whitespace and joined with
    "_"; characters outside [A-Za-z0-9_.-] are dropped; "." and "_" are
    stripped from both ends. *)
Definition slash_to_space (c : ascii) : ascii :=
  if Ascii.eqb c "/" then " "%char else c.

Fixpoint map_chars (f : ascii -> ascii) (s : string) : string :=
  match s with
  | String c s' => String (f c) (map_chars f s')
  | EmptyString => EmptyString
  end.

Fixpoint filter_chars (p : ascii -> bool) (s : string) : string :=
  match s with
  | String c s' => if p c then String c (filter_chars p s') else filter_chars p s'
  | EmptyString => EmptyString
  end.

(** ["_".join(s.split())] for an [s] without leading or trailing
    whitespace: each run of whitespace becomes one "_". *)
Fixpoint join_words (in_space : bool) (s : string) : string :=
  match s with
  | String c s' =>
      if Py.isspace c then
        if in_space then join_words true s' else String "_" (join_words true s')
      else String c (join_words false s')
  | EmptyString => EmptyString
  end.

Definition filename_char (c : ascii) : bool :=
  let n := Z.of_N (N_of_ascii c) in
  ((65 <=? n) && (n <=? 90)) || ((97 <=? n) && (n <=? 122))
  || ((48 <=? n) && (n <=? 57))
  || Ascii.eqb c "_" || Ascii.eqb c "." || Ascii.eqb c "-".

Definition dot_or_underscore (c : ascii) : bool :=
  Ascii.eqb c "." || Ascii.eqb c "_".

Definition secure_filename_ascii (name : string) : string :=
  Py.strip_by dot_or_underscore
    (filter_chars filename_char
       (join_words false (Py.strip (map_chars slash_to_space name)))).

(** *** Worlds and requests used in the examples *)

Definition post (l : list (string * string)) : Request :=
  mkRequest POST (fields l) no_files 0.

(** A POST that uploads one screenshot. *)
Definition upload (f : FileStorage) : Request :=
  mkRequest POST (fields [])
            (fun key => if String.eqb key "screenshot" then Some f else None) 0.

(** The seeded shop after the demo user, respectively the admin, has
    logged in. *)
Definition shop : World :=
  snd (run (login (post [("username", "user"); ("password", "user123")])) seeded).

Definition shop_admin : World :=
  snd (run (login (post [("username", "admin"); ("password", "admin123")])) seeded).

Definition demo_user : User.t := User.make 2 "user" (Hashed "user123") false 0.

(** The demo user's cart after two clicks on "add" for item 1. *)
Definition shop_with_cart : World :=
  snd (run (add_to_cart 1) (snd (run (add_to_cart 1) shop))).

(** A ledger with an entry whose item is gone (item 99) and an entry of
    quantity 0, beside a regular one; the second user owns one row. *)
Definition odd_ledger : World :=
  mkWorld (mkDB (users (db shop)) (items (db shop))
                [Cart.make 1 2 1 2; Cart.make 2 2 99 5; Cart.make 3 2 2 0;
                 Cart.make 4 1 3 1])
          (Some 2) [] [].

(** An uploaded screenshot, named as a browser might send it. *)
Definition receipt : FileStorage := mkFile "../Receipt final.JPG" "JFIF".

(** The relay succeeds; the relay raises. *)
Definition relay_ok : IO := mkIO None None.
Definition relay_down : IO := mkIO None (Some "Connection refused").


(** *** What one request may do to the database

    [db_step who d d']: a request served for the session user [who]
    takes the database from [d] to [d'] by the writes of one view, under
    the checks that view makes first. *)
Inductive db_step (who : option User.t) (d : DB) : DB -> Prop :=
| step_signup (uname : string) (pwd : string) (now : Z) :
    uname <> "" -> Py.strip uname = uname ->
    User_by_username d uname = None ->
    db_step who d
      (add_User uname (generate_password_hash pwd)
                (String.eqb (Py.lower uname) "admin") now d)
| step_create_item (a : User.t) (name : string) (price : float)
    (image_url : string) (now : Z) :
    who = Some a -> User.is_admin a = true -> name <> "" ->
    db_step who d (add_Item name price image_url now d)
| step_delete_item (a : User.t) (item : Item.t) :
    who = Some a -> User.is_admin a = true ->
    Item_get d (Item.id item) = Some item ->
    db_step who d (delete_Cart_by_item (Item.id item) (delete_Item item d))
| step_add_entry (u : User.t) (item : Item.t) :
    who = Some u ->
    User_get d (User.id u) = Some u ->
    Item_get d (Item.id item) = Some item ->
    Cart_first d (User.id u) (Item.id item) = None ->
    db_step who d (add_Cart (User.id u) (Item.id item) 1 d)
| step_increment (u : User.t) (item : Item.t) (row : Cart.t) :
    who = Some u ->
    Cart_first d (User.id u) (Item.id item) = Some row ->
    db_step who d (set_Cart_quantity row (Cart.quantity row + 1) d)
| step_set_quantity (u : User.t) (row : Cart.t) (q : Z) :
    who = Some u -> In row (carts d) -> 0 < q ->
    db_step who d (set_Cart_quantity row q d)
| step_delete_entry (u : User.t) (row : Cart.t) :
    who = Some u -> In row (carts d) ->
    db_step who d (delete_Cart row d)
| step_clear (u : User.t) :
    who = Some u ->
    db_step who d (delete_Cart_by_user (User.id u) d).

(** Some request, or a sequence of them, whoever is logged in. *)
Definition db_move (d d' : DB) : Prop := exists who, db_step who d d'.

Inductive db_moves (d : DB) : DB -> Prop :=
| moves_none : db_moves d d
| moves_more (d1 d2 : DB) : db_moves d d1 -> db_move d1 d2 -> db_moves d d2.

(** *** Invariants of the database *)

(** Rowids start at 1. *)
Definition positive_ids (d : DB) : Prop :=
  Forall (fun u => 0 < User.id u) (users d) /\
  Forall (fun i => 0 < Item.id i) (items d) /\
  Forall (fun c => 0 < Cart.id c) (carts d).

(** A cart row holds at least one piece. *)
Definition quantities_positive (d : DB) : Prop :=
  Forall (fun c => 1 <= Cart.quantity c) (carts d).

(** A cart row refers to a user and to an item that exist. *)
Definition references_resolve (d : DB) : Prop :=
  Forall (fun c => Item_get d (Cart.item_id c) <> None /\
                   User_get d (Cart.user_id c) <> None) (carts d).

(** User names are pairwise different, non-empty and without whitespace
    at either end. *)
Definition usernames_ok (d : DB) : Prop :=
  NoDup (map User.username (users d)) /\
  Forall (fun u => User.username u <> "" /\
                   Py.strip (User.username u) = User.username u) (users d).

(** The admins are the users called "admin", in any case of letters. *)
Definition admins_by_name (d : DB) : Prop :=
  Forall (fun u => User.is_admin u = eq_nocase (User.username u) "admin")
         (users d).

(** Every message in the outbox is a payment screenshot for the admin
    address, sent on behalf of a user of the database, with one
    attachment typed by [attachment_mime]. *)
Definition mail_ok (ADMIN_EMAIL : string) (w : World) : Prop :=
  Forall (fun m =>
            subject m = "Payment Screenshot" /\
            recipients m = [ADMIN_EMAIL] /\
            (exists u, In u (users (db w)) /\
                       body m = "User " ++ User.username u
                                  ++ " uploaded a payment screenshot.") /\
            (exists name data,
                attachments m = [(name, attachment_mime name, data)]))
         (outbox w).

(** [l] is sorted, newest first. *)
Fixpoint newest_first (l : list Item.t) : Prop :=
  match l with
  | [] => True
  | i :: l' =>
      Forall (fun j => Item.created_at j <= Item.created_at i) l' /\
      newest_first l'
  end.

(** A plain GET. *)
Definition get : Request := mkRequest GET (fields []) no_files 0.


(* ================================================================== *)
(** ** Sanity checks of the built-ins *)
(* ================================================================== *)

Example int_ex1 : Py.int " 12 " = Some 12. Proof. reflexivity. Qed.
Example int_ex2 : Py.int "-3" = Some (-3). Proof. reflexivity. Qed.
Example int_ex3 : Py.int "1_000" = Some 1000. Proof. reflexivity. Qed.
Example int_ex4 : Py.int "1__0" = None. Proof. reflexivity. Qed.
Example int_ex5 : Py.int "2.5" = None. Proof. reflexivity. Qed.
Example int_ex6 : Py.int_or_1 "" = Some 1. Proof. reflexivity. Qed.
Example float_ex1 : Py.float "1299.0" = Some 1299%float.
Proof. vm_compute. reflexivity. Qed.
Example float_ex2 : Py.float " 2.5e1 " = Some 25%float.
Proof. vm_compute. reflexivity. Qed.
Example float_ex3 : Py.float "-inf" = Some neg_infinity.
Proof. vm_compute. reflexivity. Qed.
Example float_ex4 : Py.float "12,50" = None.
Proof. vm_compute. reflexivity. Qed.
Example float_ex5 : Py.float_or_0 "" = Some 0%float.
Proof. vm_compute. reflexivity. Qed.
Example mul_ex1 : Py.mul_float_int 1299%float 2 = Some 2598%float.
Proof. vm_compute. reflexivity. Qed.
Example mul_ex2 : Py.mul_float_int 1%float (2 ^ 1024) = None.
Proof. vm_compute. reflexivity. Qed.
Example strip_ex : Py.strip "  a b  " = "a b". Proof. reflexivity. Qed.
Example lower_ex : Py.lower "AdMiN-Z[" = "admin-z[". Proof. reflexivity. Qed.

Example fits_ex1 : fits_float 1 = true. Proof. reflexivity. Qed.
Example fits_ex2 : fits_float (2 ^ 63 - 1) = true.
Proof. vm_compute. reflexivity. Qed.
Example secure_ex1 :
  secure_filename_ascii "../../Receipt  final.JPG" = "Receipt_final.JPG".
Proof. reflexivity. Qed.
Example secure_ex2 : secure_filename_ascii "../../../etc/passwd" = "etc_passwd".
Proof. reflexivity. Qed.

(** Nobody is logged in on the seeded shop: the gates turn the request
    away and write nothing to the database. *)
Example gate_ex1 :
  run (add_to_cart 1) seeded
  = (Redirect "login", mkWorld (db seeded) None [("Please login first.", "warn")] []).
Proof. reflexivity. Qed.

Example gate_ex2 :
  fst (run (admin_delete_item 1) shop) = Redirect "items" /\
  db (snd (run (admin_delete_item 1) shop)) = db shop.
Proof. split; reflexivity. Qed.

Example login_ex1 :
  fst (run (login (post [("username", "user"); ("password", "wrong")])) seeded)
  = Render "login.html" NoContext.
Proof. reflexivity. Qed.

(* ================================================================== *)
(** ** The monad and the session gate *)
(* ================================================================== *)

Lemma current_user_run (w : World) :
  current_user w = (inl (session_user w), w).
Proof.
  unfold session_user, current_user, bind, gets, query, ret.
  cbn. destruct (session w) as [uid|]; cbn; [|reflexivity].
  destruct (uid =? 0); reflexivity.
Qed.

Lemma the_current_user_run (w : World) (u : User.t) :
  session_user w = Some u -> the_current_user w = (inl u, w).
Proof.
  intros H. unfold the_current_user, bind.
  rewrite current_user_run, H. reflexivity.
Qed.

Lemma login_required_run (view : M response) (w : World) (u : User.t) :
  session_user w = Some u -> login_required view w = view w.
Proof.
  intros H. unfold login_required, bind.
  rewrite current_user_run, H. reflexivity.
Qed.

Lemma admin_required_run (view : M response) (w : World) (u : User.t) :
  session_user w = Some u -> User.is_admin u = true ->
  admin_required view w = view w.
Proof.
  intros H Ha. unfold admin_required, bind.
  rewrite current_user_run, H, Ha. reflexivity.
Qed.

(** The session gate looks at the session and the [User] table only. *)
Lemma session_user_ext (w w' : World) :
  session w' = session w -> users (db w') = users (db w) ->
  session_user w' = session_user w.
Proof.
  intros Hs Hu. unfold session_user, current_user, bind, gets, query, ret.
  cbn. rewrite Hs. destruct (session w) as [uid|]; cbn; [|reflexivity].
  destruct (uid =? 0); cbn; [reflexivity|].
  unfold User_get. rewrite Hu. reflexivity.
Qed.

(* ================================================================== *)
(** ** Tables: rowids, lookups by key, updates of one row *)
(* ================================================================== *)

Lemma distinct_NoDup (l : list Z) : distinct l = true <-> NoDup l.
Proof.
  induction l as [|x l IH]; cbn.
  - split; [constructor | reflexivity].
  - rewrite andb_true_iff, negb_true_iff, IH. split.
    + intros [Hx Hl]. constructor; [|assumption].
      intros Hin. assert (E : existsb (Z.eqb x) l = true).
      { apply existsb_exists. exists x. split; [assumption | apply Z.eqb_refl]. }
      congruence.
    + intros H. inversion H as [|? ? Hx Hl]; subst. split; [|assumption].
      destruct (existsb (Z.eqb x) l) eqn:E; [|reflexivity].
      apply existsb_exists in E. destruct E as [y [Hy Exy]].
      apply Z.eqb_eq in Exy. subst y. contradiction.
Qed.

Lemma fold_max_ge (x : Z) (xs : list Z) :
  x <= fold_right Z.max x xs /\ forall y, In y xs -> y <= fold_right Z.max x xs.
Proof.
  induction xs as [|z xs [IH1 IH2]]; cbn.
  - split; [lia | contradiction].
  - split; [lia|]. intros y [->|Hy]; [lia|]. specialize (IH2 y Hy). lia.
Qed.

(** The rowid of a new row is above every rowid in use. *)
Lemma next_rowid_above (ids : list Z) (y : Z) : In y ids -> y < next_rowid ids.
Proof.
  destruct ids as [|x xs]; [contradiction|].
  intros Hy. unfold next_rowid. destruct (fold_max_ge x xs) as [H1 H2].
  destruct Hy as [->|Hy]; [lia|]. specialize (H2 y Hy). lia.
Qed.

Lemma next_rowid_fresh (ids : list Z) : ~ In (next_rowid ids) ids.
Proof. intros H. apply next_rowid_above in H. lia. Qed.

Lemma NoDup_app_fresh (ids : list Z) :
  NoDup ids -> NoDup (ids ++ [next_rowid ids])%list.
Proof.
  intros H. apply NoDup_app; [assumption | repeat constructor; intros [] |].
  intros a Ha [<-|[]]. exact (next_rowid_fresh ids Ha).
Qed.

Section ByKey.

Context {A : Type} (key : A -> Z).

Lemma find_key_some (l : list A) (k : Z) (a : A) :
  find (fun x => key x =? k) l = Some a -> In a l /\ key a = k.
Proof.
  intros H. apply find_some in H. destruct H as [H1 H2].
  apply Z.eqb_eq in H2. auto.
Qed.

Lemma find_key_none (l : list A) (k : Z) :
  find (fun x => key x =? k) l = None -> ~ In k (map key l).
Proof.
  intros H Hin. apply in_map_iff in Hin. destruct Hin as [a [Ha Hl]].
  pose proof (find_none _ _ H a Hl) as E. cbn in E.
  apply Z.eqb_neq in E. contradiction.
Qed.



Lemma NoDup_map_filter (p : A -> bool) (l : list A) :
  NoDup (map key l) -> NoDup (map key (filter p l)).
Proof.
  induction l as [|x l IH]; cbn; [auto|].
  intros H. inversion H as [|? ? Hx Hl]; subst.
  destruct (p x); cbn; [|auto]. constructor; [|auto].
  intros Hin. apply Hx. apply in_map_iff in Hin.
  destruct Hin as [a [Ea Ha]]. apply filter_In in Ha.
  rewrite <- Ea. apply in_map. tauto.
Qed.


(** A key that no row has: an update by that key changes nothing. *)
Lemma map_key_fresh (l : list A) (k : Z) (f : A -> A) :
  ~ In k (map key l) ->
  map (fun x => if key x =? k then f x else x) l = l.
Proof.
  intros H. rewrite <- (map_id l) at 2. apply map_ext_in.
  intros y Hy. destruct (key y =? k) eqn:E; [|reflexivity].
  apply Z.eqb_eq in E. exfalso. apply H. rewrite <- E. apply in_map. assumption.
Qed.



Lemma find_key_filter_other (l : list A) (key' : A -> Z) (k k' : Z) :
  (forall x, key x = k -> key' x <> k') ->
  find (fun x => key x =? k) (filter (fun x => negb (key' x =? k')) l) =
  find (fun x => key x =? k) l.
Proof.
  intros Hk. induction l as [|x l IH]; cbn; [reflexivity|].
  destruct (key' x =? k') eqn:E'; cbn.
  - destruct (key x =? k) eqn:E; [|exact IH].
    apply Z.eqb_eq in E, E'. exfalso. exact (Hk x E E').
  - rewrite IH. reflexivity.
Qed.

End ByKey.

Lemma find_app_none {A : Type} (p : A -> bool) (l : list A) (x : A) :
  find p l = None -> find p (l ++ [x]) = if p x then Some x else None.
Proof.
  induction l as [|y l IH]; cbn; [reflexivity|].
  destruct (p y); [discriminate | exact IH].
Qed.

Lemma filter_filter {A : Type} (p q : A -> bool) (l : list A) :
  filter p (filter q l) = filter q (filter p l).
Proof.
  induction l as [|x l IH]; cbn; [reflexivity|].
  destruct (p x) eqn:Ep, (q x) eqn:Eq; cbn; rewrite ?Ep, ?Eq, IH; reflexivity.
Qed.

Lemma filter_none {A : Type} (p : A -> bool) (l : list A) :
  filter p (filter (fun x => negb (p x)) l) = [].
Proof.
  induction l as [|x l IH]; cbn; [reflexivity|].
  destruct (p x) eqn:Ep; cbn; rewrite ?Ep; assumption.
Qed.

Lemma filter_all {A : Type} (p : A -> bool) (l : list A) :
  (forall x, In x l -> p x = true) -> filter p l = l.
Proof.
  induction l as [|x l IH]; cbn; [reflexivity|].
  intros H. rewrite (H x (or_introl eq_refl)). f_equal. apply IH.
  intros y Hy. apply H. right. exact Hy.
Qed.

Lemma find_none_filter_nil {A : Type} (p : A -> bool) (l : list A) :
  find p l = None -> filter p l = [].
Proof.
  induction l as [|x l IH]; cbn; [reflexivity|].
  destruct (p x); [discriminate | exact IH].
Qed.

Example seeded_pk_unique : pk_unique (db seeded).
Proof. repeat split; apply distinct_NoDup; reflexivity. Qed.

(** *** The writes keep the primary keys unique *)

Lemma map_id_set_quantity (row : Cart.t) (q : Z) (l : list Cart.t) :
  map Cart.id
      (map (fun c => if Cart.id c =? Cart.id row then Cart.with_quantity q c else c) l)
  = map Cart.id l.
Proof.
  rewrite map_map. apply map_ext. intros c.
  destruct (Cart.id c =? Cart.id row); reflexivity.
Qed.

Lemma writes_keep_pk_unique (d : DB) :
  pk_unique d ->
  (forall uname h adm now, pk_unique (add_User uname h adm now d)) /\
  (forall name price url now, pk_unique (add_Item name price url now d)) /\
  (forall uid iid q, pk_unique (add_Cart uid iid q d)) /\
  (forall row q, pk_unique (set_Cart_quantity row q d)) /\
  (forall row, pk_unique (delete_Cart row d)) /\
  (forall item, pk_unique (delete_Item item d)) /\
  (forall iid, pk_unique (delete_Cart_by_item iid d)) /\
  (forall uid, pk_unique (delete_Cart_by_user uid d)).
Proof.
  intros [Hu [Hi Hc]]. unfold pk_unique, add_User, add_Item, add_Cart,
    set_Cart_quantity, delete_Cart, delete_Item, delete_Cart_by_item,
    delete_Cart_by_user. cbn [users items carts].
  repeat split; intros; try assumption;
    rewrite ?map_app, ?map_id_set_quantity; cbn [map];
    try (apply NoDup_app_fresh; assumption);
    try (apply NoDup_map_filter; assumption).
  assumption.
Qed.

Lemma filter_length_map {A : Type} (p : A -> bool) (f : A -> A) (l : list A) :
  (forall x, p (f x) = p x) ->
  List.length (filter p (map f l)) = List.length (filter p l).
Proof.
  intros H. induction l as [|x l IH]; cbn; [reflexivity|].
  rewrite H. destruct (p x); cbn; rewrite IH; reflexivity.
Qed.


(* ================================================================== *)
(** ** The cart page *)
(* ================================================================== *)

Lemma join_cons (d : DB) (e : Cart.t) (entries : list Cart.t) :
  join d (e :: entries) =
  match Item_get d (Cart.item_id e) with
  | Some item => (e, item) :: join d entries
  | None => join d entries
  end.
Proof.
  unfold join. cbn [flat_map].
  destruct (Item_get d (Cart.item_id e)); reflexivity.
Qed.

(** The loop of [cart] computes the specification's view: the lines are
    appended to the accumulator, the line totals added to the running
    total. *)
Lemma cart_loop_refines (d : DB) (entries : list Cart.t) :
  forall (acc : list Line.t) (total : float),
    cart_loop d entries acc total =
    match lines_of (join d entries) with
    | Some ls => Some ((acc ++ ls)%list, sum_from total (map Line.line_total ls))
    | None => None
    end.
Proof.
  induction entries as [|e entries IH]; intros acc total.
  - cbn. rewrite app_nil_r. reflexivity.
  - rewrite join_cons. cbn [cart_loop].
    destruct (Item_get d (Cart.item_id e)) as [item|]; [|apply IH].
    cbn [lines_of]. unfold lineTotal.
    destruct (Py.mul_float_int (Item.price item) (Z.max 1 (Cart.quantity e)))
      as [t|]; [|reflexivity].
    rewrite IH. destruct (lines_of (join d entries)) as [ls|]; [|reflexivity].
    cbn. rewrite <- app_assoc. reflexivity.
Qed.

Lemma cart_run (w : World) (u : User.t) :
  session_user w = Some u ->
  run cart w = (cart_page (viewCart (db w) (User.id u)), w).
Proof.
  intros H. unfold run, cart. rewrite (login_required_run _ _ _ H).
  unfold bind. rewrite (the_current_user_run _ _ H).
  unfold query, gets, raising. cbn.
  rewrite cart_loop_refines. unfold viewCart, view_entries, sum_from.
  destruct (lines_of (join (db w) (Cart_of_user (db w) (User.id u))));
    reflexivity.
Qed.

Lemma lines_of_join_some (d : DB) (entries : list Cart.t) (ls : list Line.t) :
  lines_of (join d entries) = Some ls ->
  Forall2 (line_for d) (filter (item_exists d) entries) ls.
Proof.
  revert ls. induction entries as [|e entries IH]; intros ls.
  - cbn. intros E. inversion E. constructor.
  - rewrite join_cons. cbn [filter]. unfold item_exists at 1.
    destruct (Item_get d (Cart.item_id e)) as [item|] eqn:Ei; [|apply IH].
    cbn [lines_of]. unfold lineTotal, Py.mul_float_int.
    destruct (Py.float_of_int (Z.max 1 (Cart.quantity e))) as [k|] eqn:Ek;
      [|discriminate].
    destruct (lines_of (join d entries)) as [ls'|]; [|discriminate].
    intros E. inversion E; subst ls. constructor; [|apply IH; reflexivity].
    exists item, k. repeat split; assumption.
Qed.

Lemma lines_of_join_fits (d : DB) (entries : list Cart.t) :
  (forall e, In e (filter (item_exists d) entries) ->
             fits_float (Z.max 1 (Cart.quantity e)) = true) ->
  exists ls, lines_of (join d entries) = Some ls.
Proof.
  induction entries as [|e entries IH]; intros Hfit.
  - exists []. reflexivity.
  - rewrite join_cons. cbn [filter] in Hfit. unfold item_exists at 1 in Hfit.
    destruct (Item_get d (Cart.item_id e)) as [item|] eqn:Ei; [|apply IH, Hfit].
    destruct IH as [ls Hls]; [intros e' He'; apply Hfit; right; exact He'|].
    specialize (Hfit e (or_introl eq_refl)). unfold fits_float in Hfit.
    cbn [lines_of]. unfold lineTotal, Py.mul_float_int. rewrite Hls.
    destruct (Py.float_of_int (Z.max 1 (Cart.quantity e))) as [k|];
      [|discriminate].
    eexists. reflexivity.
Qed.

Lemma view_entries_some (d : DB) (entries : list Cart.t)
    (ls : list Line.t) (total : float) :
  view_entries d entries = Some (ls, total) ->
  Forall2 (line_for d) (filter (item_exists d) entries) ls /\
  total = fold_left PrimFloat.add (map Line.line_total ls) 0%float.
Proof.
  unfold view_entries.
  destruct (lines_of (join d entries)) as [ls'|] eqn:E; [|discriminate].
  intros Ev. inversion Ev; subst. split; [|reflexivity].
  apply lines_of_join_some. exact E.
Qed.


(** Every line of a view comes from one of the listed entries. *)
Lemma view_lines_from (d : DB) (entries : list Cart.t)
    (ls : list Line.t) (total : float) :
  view_entries d entries = Some (ls, total) ->
  Forall (fun l => exists e, In e entries /\ item_exists d e = true /\
                             line_for d e l) ls.
Proof.
  intros Hv. apply view_entries_some in Hv. destruct Hv as [H2 _].
  remember (filter (item_exists d) entries) as es eqn:Ees.
  assert (Hsub : forall e, In e es -> In e entries /\ item_exists d e = true).
  { intros e He. subst es. apply filter_In in He. exact He. }
  clear Ees. induction H2 as [|e l es ls Hl _ IH]; constructor.
  - exists e. destruct (Hsub e (or_introl eq_refl)). auto.
  - apply IH. intros e' He'. apply Hsub. right. exact He'.
Qed.


(** C3.  For a logged-in user, the cart page shows one line per entry of
    the user whose item is still in the catalog, in entry order, with
    line total [price * max(1, quantity)]; the total is the sum of the
    line totals accumulated from 0.0; entries whose item is gone appear
    neither in the lines nor in the total; and the request writes
    nothing, so those entries stay in the table.  The page is produced
    whenever the listed quantities convert to a float. *)
Theorem cart_view_spec (w : World) (u : User.t) :
  session_user w = Some u ->
  let d := db w in
  let listed := filter (item_exists d) (Cart_of_user d (User.id u)) in
  run cart w = (cart_page (viewCart d (User.id u)), w) /\
  ((forall e, In e listed -> fits_float (Z.max 1 (Cart.quantity e)) = true) ->
   exists ls total, viewCart d (User.id u) = Some (ls, total)) /\
  (forall ls total,
     viewCart d (User.id u) = Some (ls, total) ->
     Forall2 (line_for d) listed ls /\
     total = fold_left PrimFloat.add (map Line.line_total ls) 0%float).
Proof.
  intros H d listed. split; [exact (cart_run w u H)|]. split.
  - intros Hfit. unfold viewCart, view_entries.
    destruct (lines_of_join_fits d _ Hfit) as [ls Hls]. rewrite Hls.
    eexists. eexists. reflexivity.
  - intros ls total. apply view_entries_some.
Qed.

(* ================================================================== *)
(** ** Adding to the cart *)
(* ================================================================== *)

Lemma add_to_cart_run (w : World) (u : User.t) (item_id : Z) :
  session_user w = Some u ->
  run (add_to_cart item_id) w =
  match Item_get (db w) item_id with
  | None => (Abort 404, w)
  | Some item =>
      (Redirect "items",
       mkWorld
         (match Cart_first (db w) (User.id u) (Item.id item) with
          | Some row => set_Cart_quantity row (Cart.quantity row + 1) (db w)
          | None => add_Cart (User.id u) (Item.id item) 1 (db w)
          end)
         (session w)
         (flashes w ++ [("Added " ++ Item.name item ++ " to cart.", "ok")])
         (outbox w))
  end.
Proof.
  intros H. unfold run, add_to_cart. rewrite (login_required_run _ _ _ H).
  unfold bind. rewrite (the_current_user_run _ _ H).
  unfold get_or_404, bind, query, gets. cbn.
  destruct (Item_get (db w) item_id) as [item|]; cbn; [|reflexivity].
  destruct (Cart_first (db w) (User.id u) (Item.id item)); reflexivity.
Qed.

(** [add_to_cart] keeps the ledger at one entry per (user, item). *)
Lemma add_to_cart_keeps_one_entry_per_pair (w : World) (u : User.t) (item_id : Z) :
  session_user w = Some u ->
  one_entry_per_pair (db w) ->
  one_entry_per_pair (db (snd (run (add_to_cart item_id) w))).
Proof.
  intros H Hinv. rewrite (add_to_cart_run _ _ _ H).
  destruct (Item_get (db w) item_id) as [item|]; [|exact Hinv].
  cbn [snd db]. intros uid iid.
  destruct (Cart_first (db w) (User.id u) (Item.id item)) as [row|] eqn:E.
  - unfold set_Cart_quantity. cbn [carts]. rewrite filter_length_map.
    + apply Hinv.
    + intros c. destruct (Cart.id c =? Cart.id row); reflexivity.
  - unfold add_Cart. cbn [carts]. rewrite filter_app, length_app. cbn [filter].
    unfold entry_for at 2. cbn [Cart.user_id Cart.item_id].
    destruct ((User.id u =? uid) && (Item.id item =? iid)) eqn:Em.
    + apply andb_true_iff in Em. destruct Em as [E1 E2].
      apply Z.eqb_eq in E1, E2. subst uid iid.
      rewrite (find_none_filter_nil (entry_for (User.id u) (Item.id item)) _ E).
      cbn. lia.
    + cbn. specialize (Hinv uid iid). lia.
Qed.


(* ================================================================== *)
(** ** Updating a cart row *)
(* ================================================================== *)





(* ================================================================== *)
(** ** Deleting an item *)
(* ================================================================== *)



(* ================================================================== *)
(** ** The payment flow *)
(* ================================================================== *)

Lemma success_run (w : World) (u : User.t) :
  session_user w = Some u ->
  run success w =
  (Render "success.html" NoContext,
   mkWorld (delete_Cart_by_user (User.id u) (db w))
           (session w) (flashes w) (outbox w)).
Proof.
  intros H. unfold run, success. rewrite (login_required_run _ _ _ H).
  unfold bind. rewrite (the_current_user_run _ _ H). reflexivity.
Qed.

(** C10.  The success page takes nothing from the request and reads
    nothing of the payment flow: for a logged-in user, in any world, it
    deletes that user's cart rows and only those. *)
Theorem success_clears_cart (w : World) (u : User.t) :
  session_user w = Some u ->
  exists w',
    run success w = (Render "success.html" NoContext, w') /\
    carts (db w') =
      filter (fun c => negb (Cart.user_id c =? User.id u)) (carts (db w)) /\
    Cart_of_user (db w') (User.id u) = [] /\
    (forall v, v <> User.id u -> Cart_of_user (db w') v = Cart_of_user (db w) v) /\
    users (db w') = users (db w) /\ items (db w') = items (db w) /\
    session w' = session w /\ flashes w' = flashes w /\ outbox w' = outbox w.
Proof.
  intros H. rewrite (success_run _ _ H). eexists. split; [reflexivity|].
  cbn. split; [reflexivity|]. split.
  { unfold Cart_of_user. cbn.
    apply (filter_none (fun c => Cart.user_id c =? User.id u)). }
  split; [|repeat split; reflexivity].
  intros v Hv. unfold Cart_of_user. cbn. rewrite filter_filter.
  apply filter_all. intros c Hc. apply filter_In in Hc.
  destruct Hc as [_ Ec]. apply Z.eqb_eq in Ec. rewrite Ec.
  apply negb_true_iff, Z.eqb_neq. exact Hv.
Qed.

Lemma send_screenshot_run (ADMIN_EMAIL : string)
    (secure_filename : string -> string)
    (w : World) (u : User.t) (req : Request) (io : IO) (f : FileStorage) :
  session_user w = Some u ->
  method req = POST ->
  files req "screenshot" = Some f ->
  filename f <> "" ->
  run (send_screenshot ADMIN_EMAIL secure_filename req io) w =
  match save_raises io with
  | Some e => (Raised e, w)
  | None =>
      (Redirect "success",
       match relay_raises io with
       | None =>
           mkWorld (db w) (session w)
             (flashes w ++ [("Screenshot sent to admin email!", "ok")])
             (outbox w ++ [screenshot_message ADMIN_EMAIL u
                             (secure_filename (filename f)) f])
       | Some e =>
           mkWorld (db w) (session w)
             (flashes w ++ [("Email send simulated (or failed): " ++ e, "warn")])
             (outbox w)
       end)
  end.
Proof.
  intros H Hm Hf Hn. unfold run, send_screenshot.
  rewrite (login_required_run _ _ _ H), Hm, Hf.
  apply String.eqb_neq in Hn. rewrite Hn.
  destruct (save_raises io) as [e|]; [reflexivity|].
  unfold bind. rewrite current_user_run, H.
  destruct (relay_raises io); reflexivity.
Qed.

(** C2.  For a logged-in user who uploads a named file that is saved:
    whether the relay succeeds (the message is sent) or raises (a "warn"
    flash, nothing sent), the upload step leaves the database alone and
    redirects to the success page; the success page then deletes the
    user's cart rows, and the cart page that follows has no line and
    total 0.0. *)
Theorem checkout_clears_cart (ADMIN_EMAIL : string)
    (secure_filename : string -> string)
    (w : World) (u : User.t) (req : Request) (io : IO) (f : FileStorage) :
  session_user w = Some u ->
  method req = POST ->
  files req "screenshot" = Some f ->
  filename f <> "" ->
  save_raises io = None ->
  exists w1 w2,
    run (send_screenshot ADMIN_EMAIL secure_filename req io) w
      = (Redirect "success", w1) /\
    db w1 = db w /\
    (relay_raises io = None ->
     flashes w1 = (flashes w ++ [("Screenshot sent to admin email!", "ok")])%list /\
     outbox w1 = (outbox w ++ [screenshot_message ADMIN_EMAIL u
                                 (secure_filename (filename f)) f])%list) /\
    (forall e, relay_raises io = Some e ->
     flashes w1 = (flashes w ++
                   [(("Email send simulated (or failed): " ++ e)%string,
                     "warn")])%list /\
     outbox w1 = outbox w) /\
    run success w1 = (Render "success.html" NoContext, w2) /\
    Cart_of_user (db w2) (User.id u) = [] /\
    run cart w2 = (Render "cart.html" (CartContext [] 0%float), w2).
Proof.
  intros H Hm Hf Hn Hs.
  rewrite (send_screenshot_run _ _ _ _ _ _ _ H Hm Hf Hn), Hs.
  set (w1 := match relay_raises io with Some _ => _ | None => _ end).
  assert (Hdb : db w1 = db w) by (unfold w1; destruct (relay_raises io); reflexivity).
  assert (Hse : session w1 = session w)
    by (unfold w1; destruct (relay_raises io); reflexivity).
  assert (H1 : session_user w1 = Some u).
  { rewrite <- H. apply session_user_ext; [exact Hse | rewrite Hdb; reflexivity]. }
  pose proof (success_run w1 u H1) as R2.
  set (w2 := mkWorld _ _ _ _) in R2.
  assert (Hempty : Cart_of_user (db w2) (User.id u) = []).
  { unfold Cart_of_user, w2. cbn.
    apply (filter_none (fun c => Cart.user_id c =? User.id u)). }
  assert (H2 : session_user w2 = Some u).
  { rewrite <- H1. apply session_user_ext; reflexivity. }
  exists w1, w2. split; [reflexivity|]. split; [exact Hdb|].
  split; [intros E; unfold w1; rewrite E; split; reflexivity|].
  split; [intros e E; unfold w1; rewrite E; split; reflexivity|].
  split; [exact R2|]. split; [exact Hempty|].
  rewrite (cart_run _ _ H2). unfold viewCart. rewrite Hempty. reflexivity.
Qed.

(* ================================================================== *)
(** ** The MIME type of the attachment *)
(* ================================================================== *)

Lemma lower_ascii_dot (c : ascii) :
  Ascii.eqb (Py.lower_ascii c) "." = Ascii.eqb c ".".
Proof.
  destruct c as [[] [] [] [] [] [] [] []]; reflexivity.
Qed.

Lemma lower_app (p q : string) :
  Py.lower (p ++ q) = Py.lower p ++ Py.lower q.
Proof.
  induction p as [|c p IH]; cbn; [reflexivity | now rewrite IH].
Qed.

Lemma contains_lower_dot (s : string) :
  Py.contains "." (Py.lower s) = Py.contains "." s.
Proof.
  induction s as [|c s IH]; cbn; [reflexivity|].
  rewrite lower_ascii_dot, IH. reflexivity.
Qed.

(** [after_last] finds the suffix that follows the last separator. *)
Lemma after_last_none (sep : ascii) (s : string) :
  Py.contains sep s = false -> Py.after_last sep s = None.
Proof.
  induction s as [|c s IH]; cbn; [reflexivity|].
  intros H. apply orb_false_iff in H. destruct H as [Hc Hs].
  rewrite (IH Hs), Hc. reflexivity.
Qed.

Lemma after_last_app (sep : ascii) (p e : string) :
  Py.contains sep e = false ->
  Py.after_last sep (p ++ String sep e) = Some e.
Proof.
  intros He. induction p as [|c p IH]; cbn.
  - rewrite (after_last_none _ _ He), Ascii.eqb_refl. reflexivity.
  - rewrite IH. reflexivity.
Qed.

Lemma contains_app (sep : ascii) (p e : string) :
  Py.contains sep (p ++ String sep e) = true.
Proof.
  induction p as [|c p IH]; cbn.
  - rewrite Ascii.eqb_refl. reflexivity.
  - rewrite IH. apply orb_true_r.
Qed.

(** A name with a separator splits at its last one. *)
Lemma contains_split (sep : ascii) (s : string) :
  Py.contains sep s = true ->
  exists p e, s = p ++ String sep e /\ Py.contains sep e = false.
Proof.
  induction s as [|c s IH]; cbn; [discriminate|].
  destruct (Py.contains sep s) eqn:Es.
  - intros _. destruct (IH eq_refl) as [p [e [E He]]].
    exists (String c p), e. cbn. rewrite E. auto.
  - rewrite orb_false_r. intros Hc. apply Ascii.eqb_eq in Hc. subst c.
    exists EmptyString, s. auto.
Qed.

(** C8 (as the code has it).  The MIME type is "image/" followed by the
    lower-cased text after the last dot of the sanitized file name, with
    "jpg" and "jpeg" both giving "image/jpeg"; a name without a dot
    gives "image/png"; any other extension is passed through as it is,
    not replaced by "png".  This is the type attached to the message
    the upload step relays. *)
Theorem attachment_mime_spec (name : string) :
  (Py.contains "." name = false -> attachment_mime name = "image/png") /\
  (Py.contains "." name = true ->
   exists stem ext,
     name = stem ++ "." ++ ext /\ Py.contains "." ext = false) /\
  (forall stem ext,
     name = stem ++ "." ++ ext -> Py.contains "." ext = false ->
     attachment_mime name =
       "image/" ++ (if Py.str_in (Py.lower ext) ["jpg"; "jpeg"]
                    then "jpeg" else Py.lower ext)) /\
  (forall ADMIN_EMAIL secure_filename w u req io f,
     session_user w = Some u -> method req = POST ->
     files req "screenshot" = Some f -> filename f <> "" ->
     secure_filename (filename f) = name ->
     save_raises io = None -> relay_raises io = None ->
     exists w' msg,
       run (send_screenshot ADMIN_EMAIL secure_filename req io) w
         = (Redirect "success", w') /\
       outbox w' = (outbox w ++ [msg])%list /\
       attachments msg = [(name, attachment_mime name, content f)]).
Proof.
  split; [|split; [|split]].
  - intros H. unfold attachment_mime. rewrite H. reflexivity.
  - apply contains_split.
  - intros stem ext -> He. unfold attachment_mime, Py.rsplit1_last.
    change (stem ++ "." ++ ext) with (stem ++ String "." ext).
    rewrite contains_app, lower_app.
    change (Py.lower (String "." ext)) with (String "." (Py.lower ext)).
    rewrite after_last_app; [reflexivity|].
    rewrite contains_lower_dot. exact He.
  - intros ADMIN_EMAIL secure_filename w u req io f H Hm Hf Hn Hname Hs Hr.
    rewrite (send_screenshot_run _ _ _ _ _ _ _ H Hm Hf Hn), Hs, Hr, Hname.
    eexists. eexists. split; [reflexivity|]. split; reflexivity.
Qed.

(* ================================================================== *)
(** ** Signing up *)
(* ================================================================== *)

Lemma ascii_eqb_N (a b : ascii) :
  Ascii.eqb a b = (N_of_ascii a =? N_of_ascii b)%N.
Proof.
  destruct (Ascii.eqb_spec a b) as [->|Hn].
  - symmetry. apply N.eqb_refl.
  - symmetry. apply N.eqb_neq. intros E. apply Hn.
    rewrite <- (ascii_N_embedding a), <- (ascii_N_embedding b), E. reflexivity.
Qed.

Lemma is_upper_bounds (a : ascii) :
  is_upper a = true <-> (65 <= N_of_ascii a <= 90)%N.
Proof.
  unfold is_upper. rewrite andb_true_iff, !N.leb_le. reflexivity.
Qed.

Lemma lower_ascii_N (a : ascii) :
  N_of_ascii (Py.lower_ascii a) =
  if is_upper a then (N_of_ascii a + 32)%N else N_of_ascii a.
Proof.
  unfold Py.lower_ascii. fold (is_upper a).
  destruct (is_upper a) eqn:E; [|reflexivity].
  apply is_upper_bounds in E. apply N_ascii_embedding. lia.
Qed.

(** Against a character that is not an upper-case letter, comparing
    after [lower] is comparing up to case. *)
Lemma lower_same_letter (a b : ascii) :
  is_upper b = false ->
  Ascii.eqb (Py.lower_ascii a) b = same_letter a b.
Proof.
  intros Hb. unfold same_letter. rewrite !ascii_eqb_N, lower_ascii_N, Hb.
  rewrite andb_false_l, orb_false_r.
  destruct (is_upper a) eqn:Ha; [|rewrite andb_false_l, orb_false_r; reflexivity].
  rewrite andb_true_l. apply is_upper_bounds in Ha.
  assert (Hne : (N_of_ascii a =? N_of_ascii b)%N = false).
  { apply N.eqb_neq. intros E. rewrite <- Bool.not_true_iff_false in Hb.
    apply Hb. apply is_upper_bounds. rewrite <- E. exact Ha. }
  rewrite Hne, orb_false_l. apply N.eqb_sym.
Qed.

Lemma lower_eqb_nocase (t : string) :
  no_upper t = true ->
  forall s, String.eqb (Py.lower s) t = eq_nocase s t.
Proof.
  induction t as [|b t IH]; intros Ht s.
  - destruct s; reflexivity.
  - cbn in Ht. apply andb_true_iff in Ht. destruct Ht as [Hb Ht].
    apply negb_true_iff in Hb. destruct s as [|a s]; [reflexivity|].
    cbn. rewrite (lower_same_letter _ _ Hb), (IH Ht).
    destruct (same_letter a b); reflexivity.
Qed.

Lemma signup_run (w : World) (req : Request) :
  method req = POST ->
  let uname := Py.strip (form_get req "username" "") in
  let pwd := Py.strip (form_get req "password" "") in
  run (signup req) w =
  if negb (Py.truthy uname) || negb (Py.truthy pwd) then
    (Redirect "signup",
     mkWorld (db w) (session w)
       (flashes w ++ [("Username and password are required.", "error")])
       (outbox w))
  else
    match User_by_username (db w) uname with
    | Some _ =>
        (Redirect "signup",
         mkWorld (db w) (session w)
           (flashes w ++ [("Username already exists.", "error")]) (outbox w))
    | None =>
        (Redirect "login",
         mkWorld
           (add_User uname (generate_password_hash pwd)
                     (String.eqb (Py.lower uname) "admin") (utcnow req) (db w))
           (session w)
           (flashes w ++ [("Signup successful. Please login.", "ok")])
           (outbox w))
    end.
Proof.
  intros Hm uname pwd. unfold run, signup. rewrite Hm. fold uname pwd.
  destruct (negb (Py.truthy uname) || negb (Py.truthy pwd)); [reflexivity|].
  unfold bind, query, gets. cbn.
  destruct (User_by_username (db w) uname); reflexivity.
Qed.


Lemma User_by_username_in (d : DB) (uname : string) (existing : User.t) :
  In existing (users d) -> User.username existing = uname ->
  User_by_username d uname <> None.
Proof.
  intros Hin Hu Hnone. unfold User_by_username in Hnone.
  pose proof (find_none _ _ Hnone existing Hin) as E. cbn in E.
  rewrite Hu, String.eqb_refl in E. discriminate.
Qed.


(* ================================================================== *)
(** ** Creating an item *)
(* ================================================================== *)



(* ================================================================== *)
(** ** The theorems at work on the seeded shop *)
(* ================================================================== *)



(** C3 at work: the entry for the missing item 99 is skipped and stays
    in the table; quantity 0 counts as 1; 2598.0 + 2499.0 = 5097.0. *)
Lemma cart_view_spec_witness :
  session_user odd_ledger = Some demo_user /\
  (exists l1 l2,
     run cart odd_ledger =
       (Render "cart.html" (CartContext [l1; l2] 5097%float), odd_ledger) /\
     (Line.cart_id l1, Line.line_total l1) = (1, 2598%float) /\
     (Line.cart_id l2, Line.line_total l2) = (3, 2499%float)) /\
  In (Cart.make 2 2 99 5) (carts (db (snd (run cart odd_ledger)))).
Proof.
  pose proof (cart_view_spec odd_ledger demo_user eq_refl) as [R [Hex _]].
  split; [reflexivity|]. split.
  - destruct Hex as [ls [total Hv]].
    + intros e He. cbn in He. destruct He as [<-|[<-|[]]]; reflexivity.
    + rewrite R, Hv. vm_compute in Hv. injection Hv as <- <-.
      eexists. eexists. split; [reflexivity|]. split; reflexivity.
  - rewrite R. cbn. right. left. reflexivity.
Defined.

(** C2 at work: the demo user, with two dresses in the cart, uploads a
    receipt while the mail relay is down, then with the relay up; either
    way the cart is empty afterwards and its total is 0.0. *)
Lemma checkout_clears_cart_witness :
  (session_user shop_with_cart = Some demo_user /\
   method (upload receipt) = POST /\
   files (upload receipt) "screenshot" = Some receipt /\
   filename receipt <> "" /\
   save_raises relay_down = None /\ save_raises relay_ok = None) /\
  (exists w1 w2,
     run (send_screenshot "admin@example.com" secure_filename_ascii
            (upload receipt) relay_down) shop_with_cart
       = (Redirect "success", w1) /\
     outbox w1 = [] /\
     run success w1 = (Render "success.html" NoContext, w2) /\
     carts (db w2) = [] /\
     run cart w2 = (Render "cart.html" (CartContext [] 0%float), w2)) /\
  (exists w1 w2,
     run (send_screenshot "admin@example.com" secure_filename_ascii
            (upload receipt) relay_ok) shop_with_cart
       = (Redirect "success", w1) /\
     map attachments (outbox w1) = [[("Receipt_final.JPG", "image/jpeg", "JFIF")]] /\
     run success w1 = (Render "success.html" NoContext, w2) /\
     carts (db w2) = [] /\
     run cart w2 = (Render "cart.html" (CartContext [] 0%float), w2)).
Proof.
  assert (Hn : filename receipt <> "") by discriminate.
  pose proof (checkout_clears_cart "admin@example.com" secure_filename_ascii
                shop_with_cart demo_user (upload receipt) relay_down receipt
                eq_refl eq_refl eq_refl Hn eq_refl) as Hdown.
  pose proof (checkout_clears_cart "admin@example.com" secure_filename_ascii
                shop_with_cart demo_user (upload receipt) relay_ok receipt
                eq_refl eq_refl eq_refl Hn eq_refl) as Hup.
  split; [repeat split; assumption|]. split.
  - destruct Hdown as [w1 [w2 [R1 [_ [_ [Hwarn [R2 [_ R3]]]]]]]].
    destruct (Hwarn _ eq_refl) as [_ Ho].
    exists w1, w2. split; [exact R1|]. split; [exact Ho|].
    split; [exact R2|]. split; [|exact R3].
    injection R1 as <-. injection R2 as <-. reflexivity.
  - destruct Hup as [w1 [w2 [R1 [_ [Hok [_ [R2 [_ R3]]]]]]]].
    destruct (Hok eq_refl) as [_ Ho].
    exists w1, w2. split; [exact R1|]. split; [rewrite Ho; reflexivity|].
    split; [exact R2|]. split; [|exact R3].
    injection R1 as <-. injection R2 as <-. reflexivity.
Defined.



(** C10 at work: the demo user has paid nothing and uploaded nothing
    (the outbox is empty); opening the success page empties the cart. *)
Lemma success_clears_cart_witness :
  session_user shop_with_cart = Some demo_user /\
  outbox shop_with_cart = [] /\
  carts (db shop_with_cart) = [Cart.make 1 2 1 2] /\
  exists w',
    run success shop_with_cart = (Render "success.html" NoContext, w') /\
    carts (db w') = [].
Proof.
  pose proof (success_clears_cart shop_with_cart demo_user eq_refl)
    as [w' [R [Hc _]]].
  split; [reflexivity|]. split; [reflexivity|]. split; [reflexivity|].
  exists w'. split; [exact R|]. rewrite Hc. reflexivity.
Defined.




(* ================================================================== *)
(** ** Where the code departs from the specification's wording *)
(* ================================================================== *)


(** C8 as stated fails: an extension the code does not know is not
    turned into "png"; a PDF or a text file is sent as "image/pdf" or
    "image/txt". *)
Lemma unknown_extension_is_not_png :
  attachment_mime (secure_filename_ascii "slip.pdf") = "image/pdf" /\
  attachment_mime (secure_filename_ascii "notes.TXT") = "image/txt" /\
  attachment_mime (secure_filename_ascii "slip.pdf") <> "image/png".
Proof.
  split; [reflexivity|]. split; [reflexivity|]. discriminate.
Qed.

(* ================================================================== *)
(** ** Every request, through the URL map *)
(* ================================================================== *)

Lemma login_required_anon (view : M response) (w : World) :
  session_user w = None ->
  login_required view w =
  (inl (Redirect "login"),
   mkWorld (db w) (session w) (flashes w ++ [("Please login first.", "warn")])
           (outbox w)).
Proof.
  intros H. unfold login_required, bind. rewrite current_user_run, H.
  reflexivity.
Qed.

Lemma admin_required_denied (view : M response) (w : World) :
  (forall a, session_user w = Some a -> User.is_admin a = false) ->
  admin_required view w =
  (inl (Redirect "items"),
   mkWorld (db w) (session w)
           (flashes w ++ [("Admin access required.", "error")]) (outbox w)).
Proof.
  intros H. unfold admin_required, bind. rewrite current_user_run.
  destruct (session_user w) as [a|]; [|reflexivity].
  rewrite (H a eq_refl). reflexivity.
Qed.


(** [strip] leaves nothing to strip. *)
Lemma rstrip_by_head (p : ascii -> bool) (s : string) :
  match s with
  | EmptyString => True
  | String c _ =>
      p c = false ->
      exists r, Py.rstrip_by p s = String c r
  end.
Proof.
  destruct s as [|c s]; [exact I|]. intros Hc. cbn.
  destruct (Py.rstrip_by p s); [rewrite Hc|]; eexists; reflexivity.
Qed.

Lemma rstrip_by_idem (p : ascii -> bool) (s : string) :
  Py.rstrip_by p (Py.rstrip_by p s) = Py.rstrip_by p s.
Proof.
  induction s as [|c s IH]; [reflexivity|]. cbn.
  destruct (Py.rstrip_by p s) as [|a r] eqn:E.
  - destruct (p c) eqn:Ec; cbn; [reflexivity|]. rewrite Ec. reflexivity.
  - cbn [Py.rstrip_by]. cbn [Py.rstrip_by] in IH. rewrite IH. reflexivity.
Qed.

Lemma lstrip_by_head (p : ascii -> bool) (s : string) :
  match Py.lstrip_by p s with
  | EmptyString => True
  | String c _ => p c = false
  end.
Proof.
  induction s as [|c s IH]; [exact I|]. cbn.
  destruct (p c) eqn:Ec; [exact IH | exact Ec].
Qed.

Lemma strip_by_idem (p : ascii -> bool) (s : string) :
  Py.strip_by p (Py.strip_by p s) = Py.strip_by p s.
Proof.
  unfold Py.strip_by. pose proof (lstrip_by_head p s) as Hh.
  destruct (Py.lstrip_by p s) as [|c t] eqn:E; [reflexivity|].
  destruct (rstrip_by_head p (String c t) Hh) as [r Hr].
  rewrite Hr. cbn [Py.lstrip_by]. rewrite Hh, <- Hr. apply rstrip_by_idem.
Qed.

Lemma strip_idem (s : string) : Py.strip (Py.strip s) = Py.strip s.
Proof. apply strip_by_idem. Qed.

Lemma truthy_true (s : string) : Py.truthy s = true -> s <> "".
Proof. destruct s; [discriminate | discriminate]. Qed.

(** Unfolding a view down to its case analysis. *)
Ltac unfold_views :=
  unfold home, signup, login, logout, items_page, admin, admin_delete_item,
    cart, add_to_cart, update_cart, payment, send_screenshot, success,
    login_required, admin_required, the_current_user, get_or_404,
    raising, bind, query, gets, write, commit, flash, set_session, deliver,
    ret, exit.

Ltac view_step :=
  cbv beta iota;
  match goal with
  | |- context [current_user ?w] => rewrite (current_user_run w)
  | |- context [match ?x with _ => _ end] =>
      lazymatch x with
      | context [match _ with _ => _ end] => fail
      | context [if _ then _ else _] => fail
      | _ => destruct x eqn:?
      end
  | |- context [if ?x then _ else _] =>
      lazymatch x with
      | context [match _ with _ => _ end] => fail
      | context [if _ then _ else _] => fail
      | _ => destruct x eqn:?
      end
  end.

Ltac run_views :=
  unfold_views; rewrite ?current_user_run;
  repeat (view_step; cbn [fst snd db session flashes outbox]);
  cbv beta iota; cbn [fst snd db session flashes outbox].

Ltac tidy :=
  repeat match goal with
         | H : Some _ = Some _ |- _ => inversion H; subst; clear H
         | H : Some _ = None |- _ => discriminate H
         | H : None = Some _ |- _ => discriminate H
         | H : true = false |- _ => discriminate H
         | H : false = true |- _ => discriminate H
         | H : negb _ = false |- _ => apply negb_false_iff in H
         | H : negb _ = true |- _ => apply negb_true_iff in H
         | H : _ || _ = false |- _ =>
             apply orb_false_iff in H; destruct H
         | H : Py.truthy _ = true |- _ => apply truthy_true in H
         | H : (_ <=? _) = false |- _ => apply Z.leb_gt in H
         | H : (_ <=? _) = true |- _ => apply Z.leb_le in H
         end.

(** The session user is the row of [User] whose id the session holds. *)
Lemma session_user_get (w : World) (u : User.t) :
  session_user w = Some u ->
  session w = Some (User.id u) /\ User.id u <> 0 /\
  User_get (db w) (User.id u) = Some u.
Proof.
  unfold session_user, current_user, bind, gets, query, ret. cbn.
  destruct (session w) as [uid|]; cbn; [|discriminate].
  destruct (uid =? 0) eqn:E0; cbn; [discriminate|].
  intros H. destruct (find_key_some User.id _ _ _ H) as [_ E]. subst uid.
  apply Z.eqb_neq in E0. auto.
Qed.

Lemma dispatch_db (e : string) (sf : string -> string) (r : Route)
    (req : Request) (io : IO) (w : World) :
  db (serve e sf r req io w) = db w \/
  db_step (session_user w) (db w) (db (serve e sf r req io w)).
Proof.
  unfold serve, dispatch, run.
  destruct r; cbn [view_of]; unfold_views;
    destruct (method req) eqn:Hm; cbn [allows];
    run_views; tidy; try (left; reflexivity); right.
  - apply step_signup; [assumption | apply strip_idem | assumption].
  - eapply step_create_item; eauto.
  - match goal with
    | H : Item_get _ _ = Some _ |- _ =>
        destruct (find_key_some Item.id _ _ _ H) as [_ E];
        rewrite <- E; eapply step_delete_item; eauto; rewrite E; exact H
    end.
  - eapply step_increment; eauto.
  - match goal with
    | H : Item_get _ _ = Some ?i |- _ =>
        destruct (find_key_some Item.id _ _ _ H) as [_ E];
        eapply step_add_entry; eauto; try (eapply session_user_get; eassumption); rewrite E; exact H
    end.
  - match goal with
    | H : Cart_get _ _ = Some _ |- _ =>
        eapply step_delete_entry; eauto;
        exact (proj1 (find_key_some Cart.id _ _ _ H))
    end.
  - match goal with
    | H : Cart_get _ _ = Some _ |- _ =>
        eapply step_set_quantity; eauto;
        exact (proj1 (find_key_some Cart.id _ _ _ H))
    end.
  - eapply step_clear; eauto.
Qed.

Lemma db_moves_trans (d1 d2 d3 : DB) :
  db_moves d1 d2 -> db_moves d2 d3 -> db_moves d1 d3.
Proof.
  intros H12 H23. induction H23 as [|d d' _ IH Hm]; [exact H12|].
  eapply moves_more; eassumption.
Qed.

Lemma db_moves_step (who : option User.t) (d d' : DB) :
  db_step who d d' -> db_moves d d'.
Proof.
  intros H. eapply moves_more; [apply moves_none | exists who; exact H].
Qed.

(** What [seed_data] writes is what two signups ("admin", then "user")
    and three additions to the catalog by an admin would write. *)
Lemma seed_data_moves (now : Z) (w : World) :
  db_moves (db w) (db (snd (seed_data now w))) /\
  session (snd (seed_data now w)) = session w /\
  flashes (snd (seed_data now w)) = flashes w /\
  outbox (snd (seed_data now w)) = outbox w.
Proof.
  unfold seed_data, bind, query, gets, write, commit, ret. cbn.
  set (boss := Some (User.make 1 "admin" (Hashed "admin123") true now)).
  assert (Hitems : forall d,
             db_moves d
               (add_Item "Floral Casual Dress" 1599%float
                  "https://images.unsplash.com/photo-1512436991641-6745cdb1723f" now
                  (add_Item "Classic Black Gown" 2499%float
                     "https://images.unsplash.com/photo-1519741497674-611481863552" now
                     (add_Item "Red Summer Dress" 1299%float
                        "https://images.unsplash.com/photo-1542060748-10c28b62716c"
                        now d)))).
  { intros d.
    eapply moves_more; [eapply moves_more; [eapply (db_moves_step boss)|]|];
      try exists boss; eapply step_create_item; try reflexivity; discriminate. }
  assert (Husers : forall d,
             users d = [] ->
             db_moves d
               (add_User "user" (generate_password_hash "user123") false now
                  (add_User "admin" (generate_password_hash "admin123") true now d))).
  { intros d Hd.
    eapply moves_more; [eapply db_moves_step|exists None].
    - apply (step_signup None d "admin" "admin123" now);
        [discriminate | reflexivity |].
      unfold User_by_username. rewrite Hd. reflexivity.
    - apply (step_signup None _ "user" "user123" now);
        [discriminate | reflexivity |].
      unfold User_by_username, add_User. cbn [users]. rewrite Hd. reflexivity. }
  destruct (users (db w)) as [|u us] eqn:Eu; cbn;
    destruct (items (db w)) as [|i rest] eqn:Ei; cbn;
    (split; [|repeat split; reflexivity]).
  - eapply db_moves_trans; [apply Husers; exact Eu | apply Hitems].
  - apply Husers. exact Eu.
  - apply Hitems.
  - apply moves_none.
Qed.

Lemma reachable_moves (e : string) (sf : string -> string) (w : World) :
  reachable e sf w -> db_moves (db empty_world) (db w).
Proof.
  intros H. induction H as [|w now _ IH|w r req io _ IH].
  - apply moves_none.
  - eapply db_moves_trans; [exact IH | apply seed_data_moves].
  - destruct (dispatch_db e sf r req io w) as [E|Hs].
    + rewrite E. exact IH.
    + eapply moves_more; [exact IH | eexists; exact Hs].
Qed.

(** A property of the empty database that every step keeps holds after
    every request and in every reachable world. *)
Lemma invariant_by_steps (Inv : DB -> Prop) :
  Inv (db empty_world) ->
  (forall who d d', db_step who d d' -> Inv d -> Inv d') ->
  (forall e sf r req io w, Inv (db w) -> Inv (db (serve e sf r req io w))) /\
  (forall now w, Inv (db w) -> Inv (db (snd (seed_data now w)))) /\
  (forall e sf w, reachable e sf w -> Inv (db w)).
Proof.
  intros H0 Hstep.
  assert (Hmoves : forall d d', db_moves d d' -> Inv d -> Inv d').
  { intros d d' Hm Hd. induction Hm as [|d1 d2 _ IH [who Hs]]; [exact Hd|].
    exact (Hstep who d1 d2 Hs IH). }
  split; [|split].
  - intros e sf r req io w Hw.
    destruct (dispatch_db e sf r req io w) as [E|Hs].
    + rewrite E. exact Hw.
    + exact (Hstep _ _ _ Hs Hw).
  - intros now w. apply Hmoves. apply seed_data_moves.
  - intros e sf w Hr. exact (Hmoves _ _ (reachable_moves e sf w Hr) H0).
Qed.

(* ================================================================== *)
(** ** Invariants of the database *)
(* ================================================================== *)

Lemma next_rowid_positive (ids : list Z) :
  Forall (fun x => 0 < x) ids -> 0 < next_rowid ids.
Proof.
  destruct ids as [|x xs]; [reflexivity|]. intros H.
  inversion H as [|? ? Hx _]; subst. unfold next_rowid.
  destruct (fold_max_ge x xs) as [H1 _]. lia.
Qed.

Lemma Forall_map_iff {A B : Type} (f : A -> B) (P : B -> Prop) (l : list A) :
  Forall P (map f l) <-> Forall (fun a => P (f a)) l.
Proof. apply Forall_map. Qed.

Lemma Forall_filter {A : Type} (P : A -> Prop) (p : A -> bool) (l : list A) :
  Forall P l -> Forall P (filter p l).
Proof.
  intros H. apply Forall_forall. intros x Hx. apply filter_In in Hx.
  rewrite Forall_forall in H. apply H. tauto.
Qed.

(** X1.  Rowids.  In every table the ids stay pairwise different and
    positive: after each request, after each start, and so in every
    reachable world. *)
Theorem rowids_unique_and_positive :
  let Inv d := pk_unique d /\ positive_ids d in
  (forall e sf r req io w, Inv (db w) -> Inv (db (serve e sf r req io w))) /\
  (forall now w, Inv (db w) -> Inv (db (snd (seed_data now w)))) /\
  (forall e sf w, reachable e sf w -> Inv (db w)).
Proof.
  apply invariant_by_steps.
  - split; [repeat split; constructor | repeat split; constructor].
  - intros who d d' Hstep [Hpk Hpos]. split.
    + destruct (writes_keep_pk_unique d Hpk)
        as [Hu [Hi [Hc [Hs [Hd [Hdi [Hdc Hcu]]]]]]].
      destruct Hstep; auto.
      apply writes_keep_pk_unique. auto.
    + destruct Hpos as [Pu [Pi Pc]].
      destruct Hstep; unfold positive_ids, add_User, add_Item, add_Cart,
        set_Cart_quantity, delete_Cart, delete_Item, delete_Cart_by_item,
        delete_Cart_by_user; cbn [users items carts];
        repeat split; try assumption; try (apply Forall_filter; assumption).
      * apply Forall_app. split; [assumption|]. constructor; [|constructor].
        cbn. apply next_rowid_positive. apply Forall_map. exact Pu.
      * apply Forall_app. split; [assumption|]. constructor; [|constructor].
        cbn. apply next_rowid_positive. apply Forall_map. exact Pi.
      * apply Forall_app. split; [assumption|]. constructor; [|constructor].
        cbn. apply next_rowid_positive. apply Forall_map. exact Pc.
      * apply Forall_map. eapply Forall_impl; [|exact Pc]. intros c Hc. cbn.
        destruct (Cart.id c =? Cart.id row); exact Hc.
      * apply Forall_map. eapply Forall_impl; [|exact Pc]. intros c Hc. cbn.
        destruct (Cart.id c =? Cart.id row); exact Hc.
Qed.

(** A row found by [first()] or [get()] is a row of the table. *)
Lemma Cart_first_in (d : DB) (uid iid : Z) (row : Cart.t) :
  Cart_first d uid iid = Some row ->
  In row (carts d) /\ Cart.user_id row = uid /\ Cart.item_id row = iid.
Proof.
  intros H. apply find_some in H. destruct H as [Hin Hm].
  apply andb_true_iff in Hm. destruct Hm as [Hu Hi].
  apply Z.eqb_eq in Hu, Hi. auto.
Qed.

(** X2.  Quantities.  Every cart row holds a quantity of at least 1, after
    each request and in every reachable world; so on the cart page of a
    reachable world the floor [max(1, quantity)] changes nothing: each
    line total is [price * quantity]. *)
Theorem quantities_stay_positive :
  (forall e sf r req io w,
     quantities_positive (db w) ->
     quantities_positive (db (serve e sf r req io w))) /\
  (forall now w,
     quantities_positive (db w) ->
     quantities_positive (db (snd (seed_data now w)))) /\
  (forall e sf w, reachable e sf w -> quantities_positive (db w)) /\
  (forall w uid ls total,
     quantities_positive (db w) ->
     viewCart (db w) uid = Some (ls, total) ->
     Forall (fun l => 1 <= Line.quantity l /\
                      Py.mul_float_int (Line.price l) (Line.quantity l)
                      = Some (Line.line_total l)) ls).
Proof.
  assert (Hinv := invariant_by_steps quantities_positive).
  destruct Hinv as [H1 [H2 H3]].
  - constructor.
  - intros who d d' Hstep Hq. unfold quantities_positive in *.
    assert (Hset : forall row q,
               1 <= q ->
               Forall (fun c => 1 <= Cart.quantity c)
                      (carts (set_Cart_quantity row q d))).
    { intros row q Hq1. unfold set_Cart_quantity. cbn [carts].
      apply Forall_map. eapply Forall_impl; [|exact Hq]. intros c Hc. cbn.
      destruct (Cart.id c =? Cart.id row); [exact Hq1 | exact Hc]. }
    destruct Hstep; try exact Hq;
      try (unfold delete_Cart, delete_Cart_by_item, delete_Cart_by_user,
             delete_Item; cbn [carts]; apply Forall_filter; exact Hq).
    + unfold add_Cart. cbn [carts]. apply Forall_app. split; [exact Hq|].
      constructor; [cbn; lia | constructor].
    + apply Hset.
      match goal with
      | H : Cart_first _ _ _ = Some _ |- _ =>
          apply Cart_first_in in H; destruct H as [Hin _]
      end.
      rewrite Forall_forall in Hq. specialize (Hq _ Hin). lia.
    + apply Hset. lia.
  - split; [exact H1|]. split; [exact H2|]. split; [exact H3|].
    intros w uid ls total Hq Hv. apply view_lines_from in Hv.
    eapply Forall_impl; [|exact Hv].
    intros l [c [Hc [_ [item [k [_ [Hk ->]]]]]]]. cbn.
    unfold Cart_of_user in Hc. apply filter_In in Hc. destruct Hc as [Hc _].
    unfold quantities_positive in Hq. rewrite Forall_forall in Hq.
    specialize (Hq c Hc). split; [exact Hq|].
    unfold Py.mul_float_int. rewrite Z.max_r in Hk by lia.
    rewrite Hk. reflexivity.
Qed.

Lemma find_app_keeps {A : Type} (p : A -> bool) (l l' : list A) :
  find p l <> None -> find p (l ++ l') = find p l.
Proof.
  induction l as [|x l IH]; cbn; [congruence|].
  destruct (p x); [reflexivity | exact IH].
Qed.

Lemma filter_item_exists_all (d : DB) (l : list Cart.t) :
  Forall (fun c => Item_get d (Cart.item_id c) <> None) l ->
  filter (item_exists d) l = l.
Proof.
  intros H. apply filter_all. intros c Hc. rewrite Forall_forall in H.
  specialize (H c Hc). unfold item_exists.
  destruct (Item_get d (Cart.item_id c)); [reflexivity | congruence].
Qed.

(** X3.  References.  Every cart row refers to an existing user and an
    existing item, after each request and in every reachable world; so
    the cart page of such a world skips nothing: it has one line per
    entry of the user, in entry order. *)
Theorem references_stay_resolved :
  (forall e sf r req io w,
     references_resolve (db w) ->
     references_resolve (db (serve e sf r req io w))) /\
  (forall now w,
     references_resolve (db w) ->
     references_resolve (db (snd (seed_data now w)))) /\
  (forall e sf w, reachable e sf w -> references_resolve (db w)) /\
  (forall w uid ls total,
     references_resolve (db w) ->
     viewCart (db w) uid = Some (ls, total) ->
     map Line.cart_id ls = map Cart.id (Cart_of_user (db w) uid) /\
     map Line.item_id ls = map Cart.item_id (Cart_of_user (db w) uid)).
Proof.
  assert (Hinv := invariant_by_steps references_resolve).
  destruct Hinv as [H1 [H2 H3]].
  - constructor.
  - intros who d d' Hstep Hr. unfold references_resolve in *.
    assert (Hsame : forall d1,
               items d1 = items d -> users d1 = users d ->
               forall l, Forall (fun c => Item_get d (Cart.item_id c) <> None /\
                                          User_get d (Cart.user_id c) <> None) l ->
                         Forall (fun c => Item_get d1 (Cart.item_id c) <> None /\
                                          User_get d1 (Cart.user_id c) <> None) l).
    { intros d1 Ei Eu l Hl. eapply Forall_impl; [|exact Hl].
      unfold Item_get, User_get. rewrite Ei, Eu. auto. }
    assert (Hmap : forall row q,
               Forall (fun c => Item_get d (Cart.item_id c) <> None /\
                                User_get d (Cart.user_id c) <> None)
                      (map (fun c => if Cart.id c =? Cart.id row
                                     then Cart.with_quantity q c else c) (carts d))).
    { intros row q. apply Forall_map. eapply Forall_impl; [|exact Hr].
      intros c Hc. destruct (Cart.id c =? Cart.id row); exact Hc. }
    destruct Hstep.
    + unfold add_User. cbn [carts]. eapply Forall_impl; [|exact Hr].
      intros c [Hi Hu]. split; [exact Hi|].
      unfold User_get. cbn [users]. rewrite find_app_keeps; exact Hu.
    + unfold add_Item. cbn [carts]. eapply Forall_impl; [|exact Hr].
      intros c [Hi Hu]. split; [|exact Hu].
      unfold Item_get. cbn [items]. rewrite find_app_keeps; exact Hi.
    + unfold delete_Cart_by_item, delete_Item. cbn [carts].
      apply Forall_forall. intros c Hc. apply filter_In in Hc.
      destruct Hc as [Hc Hn]. apply negb_true_iff, Z.eqb_neq in Hn.
      rewrite Forall_forall in Hr. destruct (Hr c Hc) as [Hi Hu].
      split; [|exact Hu]. unfold Item_get. cbn [items].
      rewrite (find_key_filter_other Item.id); [exact Hi|].
      intros x Ex. congruence.
    + unfold add_Cart. apply (Hsame _ eq_refl eq_refl). cbn [carts].
      apply Forall_app. split; [exact Hr|]. constructor; [|constructor].
      cbn. split; congruence.
    + apply (Hsame _ eq_refl eq_refl). apply Hmap.
    + apply (Hsame _ eq_refl eq_refl). apply Hmap.
    + apply (Hsame _ eq_refl eq_refl). unfold delete_Cart. cbn [carts].
      apply Forall_filter. exact Hr.
    + apply (Hsame _ eq_refl eq_refl). unfold delete_Cart_by_user. cbn [carts].
      apply Forall_filter. exact Hr.
  - split; [exact H1|]. split; [exact H2|]. split; [exact H3|].
    intros w uid ls total Hr Hv. unfold viewCart in Hv.
    apply view_entries_some in Hv. destruct Hv as [Hl _].
    rewrite filter_item_exists_all in Hl.
    + clear Hr. induction Hl as [|c l cs ls' [item [k [Hi [_ ->]]]] _ [IH1 IH2]];
        [split; reflexivity|].
      cbn. rewrite IH1, IH2.
      destruct (find_key_some Item.id _ _ _ Hi) as [_ ->]. split; reflexivity.
    + unfold Cart_of_user. apply Forall_filter.
      eapply Forall_impl; [|exact Hr]. intros c [Hi _]. exact Hi.
Qed.

Lemma User_by_username_none (d : DB) (uname : string) :
  User_by_username d uname = None -> ~ In uname (map User.username (users d)).
Proof.
  intros H Hin. apply in_map_iff in Hin. destruct Hin as [u [Eu Hu]].
  exact (User_by_username_in d uname u Hu Eu H).
Qed.

(** X4.  User names.  The names in [User] stay pairwise different (as
    exact strings), non-empty and free of whitespace at both ends, after
    each request and in every reachable world: [signup] strips the name,
    refuses an empty one and refuses a name already taken, and nothing
    else writes a name. *)
Theorem usernames_stay_ok :
  (forall e sf r req io w,
     usernames_ok (db w) -> usernames_ok (db (serve e sf r req io w))) /\
  (forall now w,
     usernames_ok (db w) -> usernames_ok (db (snd (seed_data now w)))) /\
  (forall e sf w, reachable e sf w -> usernames_ok (db w)).
Proof.
  apply invariant_by_steps.
  - split; constructor.
  - intros who d d' Hstep [Hnd Hok].
    destruct Hstep; try (split; assumption).
    unfold usernames_ok, add_User. cbn [users]. split.
    + rewrite map_app. cbn [map User.username].
      apply NoDup_app; [exact Hnd | repeat constructor; intros [] |].
      intros a Ha [<-|[]].
      match goal with
      | H : User_by_username _ _ = None |- _ =>
          exact (User_by_username_none _ _ H Ha)
      end.
    + apply Forall_app. split; [exact Hok|].
      constructor; [cbn; split; assumption | constructor].
Qed.

(** X5.  Admins.  In every reachable world the users with [is_admin] set
    are exactly those whose name is "admin" up to the case of its
    letters: the seeded "admin", and whoever signed up under such a
    name. *)
Theorem admins_are_named_admin :
  (forall e sf r req io w,
     admins_by_name (db w) -> admins_by_name (db (serve e sf r req io w))) /\
  (forall now w,
     admins_by_name (db w) -> admins_by_name (db (snd (seed_data now w)))) /\
  (forall e sf w, reachable e sf w -> admins_by_name (db w)).
Proof.
  apply invariant_by_steps.
  - constructor.
  - intros who d d' Hstep Ha.
    destruct Hstep; try exact Ha.
    unfold admins_by_name, add_User. cbn [users].
    apply Forall_app. split; [exact Ha|].
    constructor; [|constructor]. cbn.
    apply lower_eqb_nocase. reflexivity.
Qed.

Lemma filter_length_filter {A : Type} (p q : A -> bool) (l : list A) :
  (List.length (filter p (filter q l)) <= List.length (filter p l))%nat.
Proof.
  induction l as [|x l IH]; cbn; [lia|].
  destruct (q x), (p x) eqn:Ep; cbn; rewrite ?Ep; cbn; lia.
Qed.

(** X6.  One entry per pair.  The ledger keeps at most one row per
    (user, item), after each request and in every reachable world:
    [add_to_cart] looks the pair up before it inserts. *)
Theorem ledger_keeps_one_entry_per_pair :
  (forall e sf r req io w,
     one_entry_per_pair (db w) ->
     one_entry_per_pair (db (serve e sf r req io w))) /\
  (forall now w,
     one_entry_per_pair (db w) ->
     one_entry_per_pair (db (snd (seed_data now w)))) /\
  (forall e sf w, reachable e sf w -> one_entry_per_pair (db w)).
Proof.
  apply invariant_by_steps.
  - intros uid iid. cbn. lia.
  - intros who d d' Hstep Hone.
    assert (Hmap : forall row q, one_entry_per_pair (set_Cart_quantity row q d)).
    { intros row q uid iid. unfold set_Cart_quantity. cbn [carts].
      rewrite filter_length_map; [apply Hone|].
      intros c. destruct (Cart.id c =? Cart.id row); reflexivity. }
    assert (Hfil : forall p uid iid,
               (List.length (filter (entry_for uid iid) (filter p (carts d))) <= 1)%nat).
    { intros p uid iid. pose proof (filter_length_filter (entry_for uid iid) p (carts d)).
      specialize (Hone uid iid). lia. }
    destruct Hstep; try exact Hone; try apply Hmap;
      try (intros uid iid; apply Hfil).
    intros uid iid. unfold add_Cart. cbn [carts].
    rewrite filter_app, length_app. cbn [filter].
    unfold entry_for at 2. cbn [Cart.user_id Cart.item_id].
    destruct ((User.id u =? uid) && (Item.id item =? iid)) eqn:Em.
    + apply andb_true_iff in Em. destruct Em as [E1 E2].
      apply Z.eqb_eq in E1, E2. subst uid iid.
      match goal with
      | H : Cart_first _ _ _ = None |- _ =>
          rewrite (find_none_filter_nil (entry_for (User.id u) (Item.id item)) _ H)
      end.
      cbn. lia.
    + cbn. specialize (Hone uid iid). lia.
Qed.

(* ================================================================== *)
(** ** Users and sessions *)
(* ================================================================== *)

Lemma dispatch_session (e : string) (sf : string -> string) (r : Route)
    (req : Request) (io : IO) (w : World) :
  r <> url_login -> r <> url_logout ->
  session (serve e sf r req io w) = session w.
Proof.
  intros Hlogin Hlogout. unfold serve, dispatch, run.
  destruct r; try congruence; cbn [view_of]; unfold_views;
    destruct (method req) eqn:Hm; cbn [allows];
    run_views; reflexivity.
Qed.

(** X7.  Users.  No request deletes or rewrites a user: the [User] table
    after a request is the table before it, with at most one row
    appended.  A session therefore stays valid: whoever is logged in is
    still logged in, as the same user, after any request other than a
    login or a logout. *)
Theorem users_only_grow (e : string) (sf : string -> string) (r : Route)
    (req : Request) (io : IO) (w : World) :
  (exists l, users (db (serve e sf r req io w)) = (users (db w) ++ l)%list /\
             (List.length l <= 1)%nat) /\
  (forall u, session_user w = Some u ->
             r <> url_login -> r <> url_logout ->
             session_user (serve e sf r req io w) = Some u).
Proof.
  assert (Hgrow : exists l,
             users (db (serve e sf r req io w)) = (users (db w) ++ l)%list /\
             (List.length l <= 1)%nat).
  { destruct (dispatch_db e sf r req io w) as [E|Hs].
    - exists []. rewrite E, app_nil_r. split; [reflexivity | cbn; lia].
    - destruct Hs; try (exists []; cbn [users]; rewrite app_nil_r;
                        split; [reflexivity | cbn; lia]).
      eexists. unfold add_User. cbn [users]. split; [reflexivity | cbn; lia]. }
  split; [exact Hgrow|].
  intros u Hu Hlogin Hlogout. destruct Hgrow as [l [El _]].
  pose proof (dispatch_session e sf r req io w Hlogin Hlogout) as Es.
  destruct (session_user_get w u Hu) as [Hs [Hne Hget]].
  unfold session_user, current_user, bind, gets, query, ret. cbn.
  rewrite Es, Hs. cbn. apply Z.eqb_neq in Hne. rewrite Hne. cbn.
  unfold User_get. rewrite El. rewrite find_app_keeps; [exact Hget|].
  unfold User_get in Hget. congruence.
Qed.

(* ================================================================== *)
(** ** Who may do what *)
(* ================================================================== *)

(** X8.  Anonymous requests.  With nobody logged in, every rule under
    [@login_required] answers with a redirect to the login page and
    every rule under [@admin_required] with a redirect to the shop, each
    leaving one flash and nothing else; no rule sends mail, and only
    [/signup] can write to the database. *)
Theorem anonymous_requests_are_turned_away (e : string) (sf : string -> string)
    (r : Route) (req : Request) (io : IO) (w : World) :
  session_user w = None ->
  (login_protected r = true -> allows r (method req) = true ->
   run (dispatch e sf r req io) w =
   (Redirect "login",
    mkWorld (db w) (session w)
            (flashes w ++ [("Please login first.", "warn")]) (outbox w))) /\
  (admin_protected r = true -> allows r (method req) = true ->
   run (dispatch e sf r req io) w =
   (Redirect "items",
    mkWorld (db w) (session w)
            (flashes w ++ [("Admin access required.", "error")]) (outbox w))) /\
  (r <> url_signup -> db (serve e sf r req io w) = db w) /\
  outbox (serve e sf r req io w) = outbox w.
Proof.
  intros Hanon. split; [|split; [|split]].
  - intros Hp Ha. unfold dispatch, run. rewrite Ha.
    destruct r; try discriminate Hp; cbn [view_of];
      unfold cart, add_to_cart, update_cart, payment, send_screenshot, success;
      rewrite (login_required_anon _ _ Hanon); reflexivity.
  - intros Hp Ha. unfold dispatch, run. rewrite Ha.
    destruct r; try discriminate Hp; cbn [view_of];
      unfold admin, admin_delete_item;
      (rewrite admin_required_denied; [reflexivity|]);
      intros a Hs; congruence.
  - intros Hr. unfold serve, dispatch, run.
    destruct r; try congruence; cbn [view_of]; unfold_views;
      rewrite ?current_user_run, ?Hanon;
      destruct (method req) eqn:Hm; cbn [allows];
      run_views; try discriminate; reflexivity.
  - unfold serve, dispatch, run.
    destruct r; cbn [view_of]; unfold_views;
      rewrite ?current_user_run, ?Hanon;
      destruct (method req) eqn:Hm; cbn [allows];
      run_views; try discriminate; reflexivity.
Qed.

(** X9.  The catalog.  A request that changes the [Item] table is a POST
    to a rule under [@admin_required], made while an admin is logged
    in. *)
Theorem catalog_changes_only_by_admin (e : string) (sf : string -> string)
    (r : Route) (req : Request) (io : IO) (w : World) :
  items (db (serve e sf r req io w)) <> items (db w) ->
  admin_protected r = true /\ method req = POST /\
  exists a, session_user w = Some a /\ User.is_admin a = true.
Proof.
  unfold serve, dispatch, run.
  destruct r; cbn [view_of]; unfold_views;
    destruct (method req) eqn:Hm; cbn [allows];
    run_views; intros Hch; try (exfalso; apply Hch; reflexivity).
  all: split; [reflexivity | split; [reflexivity | eauto]].
Qed.

(** X10.  GET requests.  A GET changes neither the database nor the outbox,
    whoever sends it, with one exception: [/success], which takes GET
    and clears the cart.  The rules that only take POST answer a GET
    with 405 and leave the world as it is. *)
Theorem get_requests_write_nothing (e : string) (sf : string -> string)
    (r : Route) (req : Request) (io : IO) (w : World) :
  method req = GET ->
  (r <> url_success -> db (serve e sf r req io w) = db w) /\
  outbox (serve e sf r req io w) = outbox w /\
  (allows r GET = false -> run (dispatch e sf r req io) w = (Abort 405, w)).
Proof.
  intros Hm. split; [|split].
  - intros Hr. unfold serve, dispatch, run. rewrite Hm.
    destruct r; try congruence; cbn [view_of allows]; unfold_views;
      rewrite ?Hm; run_views; reflexivity.
  - unfold serve, dispatch, run. rewrite Hm.
    destruct r; cbn [view_of allows]; unfold_views;
      rewrite ?Hm; run_views; reflexivity.
  - intros Ha. unfold dispatch, run. rewrite Hm, Ha. reflexivity.
Qed.

(** What a request may add to the outbox. *)
Lemma dispatch_outbox (e : string) (sf : string -> string) (r : Route)
    (req : Request) (io : IO) (w : World) :
  outbox (serve e sf r req io w) = outbox w \/
  (r = url_send_screenshot /\ method req = POST /\
   save_raises io = None /\ relay_raises io = None /\
   exists u f,
     session_user w = Some u /\
     files req "screenshot" = Some f /\ filename f <> "" /\
     outbox (serve e sf r req io w) =
       (outbox w ++ [screenshot_message e u (sf (filename f)) f])%list).
Proof.
  unfold serve, dispatch, run.
  destruct r; cbn [view_of]; unfold_views;
    destruct (method req) eqn:Hm; cbn [allows];
    run_views; tidy; try (left; reflexivity).
  right. repeat (split; [assumption || reflexivity|]).
  eexists. eexists. split; [reflexivity || eassumption|].
  split; [reflexivity || eassumption|].
  split; [|reflexivity].
  match goal with
  | H : String.eqb _ _ = false |- _ => apply String.eqb_neq in H; exact H
  end.
Qed.

(** X11.  Mail.  Mail leaves the application only from a POST to
    [/send-screenshot] by a logged-in user, with a named file that was
    saved and a relay that did not raise; and every message in the
    outbox of a reachable world is a "Payment Screenshot" addressed to
    the admin address alone, naming a user of the database, with one
    attachment typed by [attachment_mime]. *)
Theorem mail_goes_to_the_admin_only (e : string) (sf : string -> string) :
  (forall r req io w,
     outbox (serve e sf r req io w) <> outbox w ->
     r = url_send_screenshot /\ method req = POST /\
     save_raises io = None /\ relay_raises io = None /\
     exists u f,
       session_user w = Some u /\
       files req "screenshot" = Some f /\ filename f <> "" /\
       outbox (serve e sf r req io w) =
         (outbox w ++ [screenshot_message e u (sf (filename f)) f])%list) /\
  (forall r req io w, mail_ok e w -> mail_ok e (serve e sf r req io w)) /\
  (forall w, reachable e sf w -> mail_ok e w).
Proof.
  assert (Hkeep : forall w w',
             (exists l, users (db w') = (users (db w) ++ l)%list) ->
             forall ms, Forall (fun m =>
                          subject m = "Payment Screenshot" /\
                          recipients m = [e] /\
                          (exists u, In u (users (db w)) /\
                                     body m = "User " ++ User.username u
                                                ++ " uploaded a payment screenshot.") /\
                          (exists name data,
                              attachments m = [(name, attachment_mime name, data)])) ms ->
                        Forall (fun m =>
                          subject m = "Payment Screenshot" /\
                          recipients m = [e] /\
                          (exists u, In u (users (db w')) /\
                                     body m = "User " ++ User.username u
                                                ++ " uploaded a payment screenshot.") /\
                          (exists name data,
                              attachments m = [(name, attachment_mime name, data)])) ms).
  { intros w w' [l El] ms Hms. eapply Forall_impl; [|exact Hms].
    intros m [H1 [H2 [[u [Hu Hb]] H4]]]. repeat split; try assumption.
    exists u. split; [|exact Hb]. rewrite El. apply in_or_app. left. exact Hu. }
  assert (Hserve : forall r req io w,
             mail_ok e w -> mail_ok e (serve e sf r req io w)).
  { intros r req io w Hok. unfold mail_ok in *.
    assert (Hgrow : exists l, users (db (serve e sf r req io w))
                              = (users (db w) ++ l)%list).
    { destruct (dispatch_db e sf r req io w) as [E|Hs].
      - exists []. rewrite E, app_nil_r. reflexivity.
      - destruct Hs; try (exists []; cbn [users]; rewrite app_nil_r; reflexivity).
        eexists. unfold add_User. cbn [users]. reflexivity. }
    destruct (dispatch_outbox e sf r req io w)
      as [E|[_ [_ [_ [_ [u [f [Hu [_ [_ E]]]]]]]]]]; rewrite E.
    - apply (Hkeep w _ Hgrow). exact Hok.
    - apply Forall_app. split; [apply (Hkeep w _ Hgrow); exact Hok|].
      constructor; [|constructor]. cbn.
      split; [reflexivity|]. split; [reflexivity|]. split.
      + exists u. split; [|reflexivity]. destruct Hgrow as [l El].
        rewrite El. apply in_or_app. left.
        destruct (session_user_get w u Hu) as [_ [_ Hget]].
        exact (proj1 (find_key_some User.id _ _ _ Hget)).
      + eexists. eexists. reflexivity. }
  split; [|split; [exact Hserve|]].
  - intros r req io w Hne.
    destruct (dispatch_outbox e sf r req io w) as [E|H]; [contradiction | exact H].
  - intros w Hr. induction Hr as [|w now _ IH|w r req io _ IH].
    + constructor.
    + destruct (seed_data_moves now w) as [Hm [_ [_ Ho]]].
      unfold mail_ok. rewrite Ho. apply (Hkeep w); [|exact IH].
      clear -Hm. induction Hm as [|d1 d2 _ [l El] [who Hs]].
      * exists []. rewrite app_nil_r. reflexivity.
      * destruct Hs; try (exists l; exact El).
        eexists. unfold add_User. cbn [users]. rewrite El, <- app_assoc.
        reflexivity.
    + apply Hserve. exact IH.
Qed.

(* ================================================================== *)
(** ** Logging in and out *)
(* ================================================================== *)




(** X14.  Logout.  A logout ends the session whatever it was and writes
    nothing else; the next request to a rule under [@login_required]
    is redirected to the login page and changes neither the database
    nor the outbox. *)
Theorem logout_ends_the_session (e : string) (sf : string -> string)
    (r : Route) (req : Request) (io : IO) (w : World) :
  let w1 := snd (run logout w) in
  fst (run logout w) = Redirect "login" /\
  session_user w1 = None /\ db w1 = db w /\ outbox w1 = outbox w /\
  (login_protected r = true -> allows r (method req) = true ->
   fst (run (dispatch e sf r req io) w1) = Redirect "login" /\
   db (serve e sf r req io w1) = db w /\
   outbox (serve e sf r req io w1) = outbox w).
Proof.
  intros w1.
  assert (Hanon : session_user w1 = None) by reflexivity.
  split; [reflexivity|]. split; [exact Hanon|].
  split; [reflexivity|]. split; [reflexivity|].
  intros Hp Ha. unfold serve, dispatch, run. rewrite Ha.
  destruct r; try discriminate Hp; cbn [view_of];
    unfold cart, add_to_cart, update_cart, payment, send_screenshot, success;
    rewrite (login_required_anon _ _ Hanon); repeat split; reflexivity.
Qed.

(* ================================================================== *)
(** ** Edge cases of the forms *)
(* ================================================================== *)


(** X16.  The upload form.  For a logged-in user, a POST to
    [/send-screenshot] without a file, or with a file without a name, is
    sent back to the form with an error and never reaches the success
    page; a file that cannot be saved raises before anything is flashed
    or sent; a GET shows the form.  In none of these cases does the
    database or the outbox change. *)
Theorem send_screenshot_without_a_file (e : string) (sf : string -> string)
    (w : World) (u : User.t) (req : Request) (io : IO) :
  session_user w = Some u ->
  (method req = GET ->
   run (send_screenshot e sf req io) w
   = (Render "send_screenshot.html" NoContext, w)) /\
  (method req = POST ->
   (files req "screenshot" = None \/
    exists f, files req "screenshot" = Some f /\ filename f = "") ->
   run (send_screenshot e sf req io) w =
   (Redirect "send_screenshot",
    mkWorld (db w) (session w)
            (flashes w ++ [("Please select an image file.", "error")])
            (outbox w))) /\
  (method req = POST ->
   forall f err,
     files req "screenshot" = Some f -> filename f <> "" ->
     save_raises io = Some err ->
     run (send_screenshot e sf req io) w = (Raised err, w)).
Proof.
  intros H. split; [|split].
  - intros Hm. unfold run, send_screenshot.
    rewrite (login_required_run _ _ _ H), Hm. reflexivity.
  - intros Hm Hf. unfold run, send_screenshot.
    rewrite (login_required_run _ _ _ H), Hm.
    destruct Hf as [-> | [f [-> Hn]]]; [reflexivity|].
    rewrite Hn. reflexivity.
  - intros Hm f err Hf Hn Hs. unfold run, send_screenshot.
    rewrite (login_required_run _ _ _ H), Hm, Hf.
    apply String.eqb_neq in Hn. rewrite Hn, Hs. reflexivity.
Qed.

(* ================================================================== *)
(** ** Seeding *)
(* ================================================================== *)

(** X17.  Seeding.  [seed_data] fills a table only when it is empty: a
    non-empty [User] table and a non-empty [Item] table are left as they
    are, and [Cart] always is.  Running it again changes nothing, so a
    restart never duplicates the demo rows. *)
Theorem seed_data_fills_empty_tables_once (now now' : Z) (w : World) :
  let w1 := snd (seed_data now w) in
  (users (db w) <> [] -> users (db w1) = users (db w)) /\
  (items (db w) <> [] -> items (db w1) = items (db w)) /\
  carts (db w1) = carts (db w) /\
  (users (db w) = [] -> map User.username (users (db w1)) = ["admin"; "user"]) /\
  (items (db w) = [] -> List.length (items (db w1)) = 3%nat) /\
  db (snd (seed_data now' w1)) = db w1.
Proof.
  destruct w as [[us its cs] s f o].
  destruct us as [|u us]; destruct its as [|i its]; cbn;
    repeat split; try reflexivity; try congruence.
Qed.

(* ================================================================== *)
(** ** The shop page *)
(* ================================================================== *)

From Stdlib Require Import Permutation.

Lemma insert_desc_perm (i : Item.t) (l : list Item.t) :
  Permutation (insert_desc i l) (i :: l).
Proof.
  induction l as [|j l IH]; cbn; [apply Permutation_refl|].
  destruct (Item.created_at j <? Item.created_at i); [apply Permutation_refl|].
  eapply perm_trans; [apply perm_skip; exact IH | apply perm_swap].
Qed.

Lemma insert_desc_sorted (i : Item.t) (l : list Item.t) :
  newest_first l -> newest_first (insert_desc i l).
Proof.
  induction l as [|j l IH]; cbn; [intros _; split; [constructor | exact I]|].
  intros [Hj Hl]. destruct (Z.ltb_spec (Item.created_at j) (Item.created_at i)).
  - cbn. split; [|split; assumption].
    constructor; [lia|]. eapply Forall_impl; [|exact Hj]. cbn. intros; lia.
  - cbn. split; [|apply IH; exact Hl].
    eapply Permutation_Forall; [apply Permutation_sym, insert_desc_perm|].
    constructor; [lia | exact Hj].
Qed.

Lemma order_by_created_at_desc_spec (acc l : list Item.t) :
  newest_first acc ->
  Permutation (fold_left (fun a i => insert_desc i a) l acc) (l ++ acc) /\
  newest_first (fold_left (fun a i => insert_desc i a) l acc).
Proof.
  revert acc. induction l as [|i l IH]; intros acc Hacc; cbn.
  - split; [apply Permutation_refl | exact Hacc].
  - destruct (IH (insert_desc i acc) (insert_desc_sorted i acc Hacc)) as [Hp Hs].
    split; [|exact Hs]. eapply perm_trans; [exact Hp|].
    eapply perm_trans; [apply Permutation_app_head, insert_desc_perm|].
    apply Permutation_sym, Permutation_middle.
Qed.

(** X18.  The shop page.  [/items] shows every item of the catalog exactly
    once, newest first, together with the session user, and changes
    nothing; an admin's GET of [/admin] shows the same list. *)
Theorem items_are_listed_newest_first (w : World) :
  exists l,
    run items_page w = (Render "items.html" (ItemsContext l (session_user w)), w) /\
    Permutation l (items (db w)) /\
    newest_first l /\
    (forall a req,
       session_user w = Some a -> User.is_admin a = true -> method req = GET ->
       run (admin req) w = (Render "admin.html" (ItemsContext l (Some a)), w)).
Proof.
  exists (order_by_created_at_desc (items (db w))).
  destruct (order_by_created_at_desc_spec [] (items (db w)) I) as [Hp Hs].
  rewrite app_nil_r in Hp. split; [|split; [exact Hp | split; [exact Hs|]]].
  - unfold run, items_page, bind, query, gets.
    cbn -[current_user order_by_created_at_desc].
    rewrite current_user_run. reflexivity.
  - intros a req Ha Hadm Hm. unfold run, admin.
    rewrite (admin_required_run _ _ _ Ha Hadm), Hm.
    unfold bind, query, gets. cbn -[current_user order_by_created_at_desc].
    rewrite current_user_run, Ha. reflexivity.
Qed.

(* ================================================================== *)
(** ** Adding the same item again and again *)
(* ================================================================== *)

Lemma add_to_cart_again (w : World) (u : User.t) (item : Item.t)
    (item_id : Z) (l : list Cart.t) (id q : Z) :
  session_user w = Some u ->
  Item_get (db w) item_id = Some item ->
  carts (db w) = (l ++ [Cart.make id (User.id u) item_id q])%list ->
  find (entry_for (User.id u) item_id) l = None ->
  ~ In id (map Cart.id l) ->
  let w' := snd (run (add_to_cart item_id) w) in
  carts (db w') = (l ++ [Cart.make id (User.id u) item_id (q + 1)])%list /\
  users (db w') = users (db w) /\ items (db w') = items (db w) /\
  session w' = session w.
Proof.
  intros H Hi Hc Hnone Hfresh w'. unfold w'.
  rewrite (add_to_cart_run _ _ _ H), Hi.
  destruct (find_key_some Item.id _ _ _ Hi) as [_ Eid]. rewrite Eid.
  assert (Hf : Cart_first (db w) (User.id u) item_id
               = Some (Cart.make id (User.id u) item_id q)).
  { unfold Cart_first. rewrite Hc.
    change (fun c => (Cart.user_id c =? User.id u) && (Cart.item_id c =? item_id))
      with (entry_for (User.id u) item_id).
    rewrite (find_app_none _ _ _ Hnone). unfold entry_for. cbn.
    rewrite !Z.eqb_refl. reflexivity. }
  rewrite Hf. cbn [snd db session]. unfold set_Cart_quantity.
  cbn [carts users items Cart.id Cart.quantity].
  rewrite Hc, map_app. cbn [map Cart.id]. rewrite Z.eqb_refl.
  rewrite (map_key_fresh Cart.id _ _ _ Hfresh). auto.
Qed.

(** X19.  Repeated adds.  For a logged-in user and an item of the catalog
    not yet in the user's cart, n + 1 POSTs to [/add-to-cart/<id>] in a
    row leave the ledger with one new row for the pair, of quantity
    n + 1, and every other row, user and item as before.  If the cart
    was empty, the cart page then shows that one line with total
    [0.0 + price * (n + 1)]. *)
Theorem add_to_cart_counts_the_adds (e : string) (sf : string -> string)
    (w : World) (u : User.t) (item_id : N) (item : Item.t)
    (req : Request) (io : IO) (n : nat) :
  session_user w = Some u ->
  method req = POST ->
  Item_get (db w) (Z.of_N item_id) = Some item ->
  Cart_first (db w) (User.id u) (Z.of_N item_id) = None ->
  let w' := serve_all e sf (repeat (url_add_to_cart item_id, req, io) (S n)) w in
  let row := Cart.make (next_rowid (map Cart.id (carts (db w)))) (User.id u)
                       (Z.of_N item_id) (Z.of_nat (S n)) in
  carts (db w') = (carts (db w) ++ [row])%list /\
  users (db w') = users (db w) /\ items (db w') = items (db w) /\
  (Cart_of_user (db w) (User.id u) = [] ->
   forall t,
     Py.mul_float_int (Item.price item) (Z.of_nat (S n)) = Some t ->
     viewCart (db w') (User.id u)
     = Some ([line_of row item t], PrimFloat.add 0%float t)).
Proof.
  intros H Hm Hi Hnone w' row.
  set (id := next_rowid (map Cart.id (carts (db w)))) in *.
  assert (Hserve : forall w0, serve e sf (url_add_to_cart item_id) req io w0
                              = snd (run (add_to_cart (Z.of_N item_id)) w0)).
  { intros w0. unfold serve, dispatch. rewrite Hm. reflexivity. }
  assert (Hall : forall k w1,
             session_user w1 = Some u ->
             Item_get (db w1) (Z.of_N item_id) = Some item ->
             users (db w1) = users (db w) -> items (db w1) = items (db w) ->
             forall q,
               carts (db w1)
               = (carts (db w) ++ [Cart.make id (User.id u) (Z.of_N item_id) q])%list ->
               let w2 := serve_all e sf
                           (repeat (url_add_to_cart item_id, req, io) k) w1 in
               carts (db w2)
               = (carts (db w)
                    ++ [Cart.make id (User.id u) (Z.of_N item_id) (q + Z.of_nat k)])%list /\
               users (db w2) = users (db w) /\ items (db w2) = items (db w)).
  { induction k as [|k IH]; intros w1 H1 Hi1 Hu1 Hit1 q Hc1.
    - cbn. rewrite Z.add_0_r. auto.
    - cbn [repeat serve_all]. rewrite Hserve.
      destruct (add_to_cart_again w1 u item (Z.of_N item_id) (carts (db w)) id q
                  H1 Hi1 Hc1 Hnone (next_rowid_fresh _))
        as [Hc2 [Hu2 [Hit2 Hs2]]].
      set (w1' := snd (run (add_to_cart (Z.of_N item_id)) w1)) in *.
      assert (H1' : session_user w1' = Some u).
      { rewrite <- H1. apply session_user_ext; assumption. }
      assert (Hi1' : Item_get (db w1') (Z.of_N item_id) = Some item).
      { unfold Item_get. rewrite Hit2. exact Hi1. }
      destruct (IH w1' H1' Hi1' (eq_trans Hu2 Hu1) (eq_trans Hit2 Hit1)
                  (q + 1) Hc2) as [Hc3 [Hu3 Hit3]].
      split; [|split; assumption].
      replace (q + Z.of_nat (S k)) with (q + 1 + Z.of_nat k) by lia.
      exact Hc3. }
  assert (Hfirst : let w1 := snd (run (add_to_cart (Z.of_N item_id)) w) in
                   session_user w1 = Some u /\
                   users (db w1) = users (db w) /\ items (db w1) = items (db w) /\
                   carts (db w1)
                   = (carts (db w) ++ [Cart.make id (User.id u) (Z.of_N item_id) 1])%list).
  { cbv zeta. rewrite (add_to_cart_run _ _ _ H), Hi.
    destruct (find_key_some Item.id _ _ _ Hi) as [_ Eid]. rewrite Eid, Hnone.
    cbn [snd db]. split; [|repeat split; reflexivity].
    rewrite <- H. apply session_user_ext; reflexivity. }
  destruct Hfirst as [H1 [Hu1 [Hit1 Hc1]]].
  assert (Hi1 : Item_get (db (snd (run (add_to_cart (Z.of_N item_id)) w)))
                         (Z.of_N item_id) = Some item).
  { unfold Item_get. rewrite Hit1. exact Hi. }
  destruct (Hall n _ H1 Hi1 Hu1 Hit1 1 Hc1) as [Hc [Hu Hit]].
  assert (Hw' : w' = serve_all e sf (repeat (url_add_to_cart item_id, req, io) n)
                       (snd (run (add_to_cart (Z.of_N item_id)) w))).
  { unfold w'. cbn [repeat serve_all]. rewrite Hserve. reflexivity. }
  rewrite Hw'.
  assert (Hq : 1 + Z.of_nat n = Z.of_nat (S n)) by lia.
  rewrite Hq in Hc. split; [exact Hc|]. split; [exact Hu|]. split; [exact Hit|].
  intros Hempty t Ht. unfold viewCart, Cart_of_user. rewrite Hc, filter_app.
  unfold Cart_of_user in Hempty. rewrite Hempty. cbn [filter app Cart.user_id].
  rewrite Z.eqb_refl. unfold view_entries, join. cbn [flat_map Cart.item_id].
  unfold Item_get. rewrite Hit. fold (Item_get (db w) (Z.of_N item_id)).
  rewrite Hi. cbn [app lines_of]. unfold lineTotal. cbn [Cart.quantity].
  rewrite Z.max_r by lia. rewrite Ht. reflexivity.
Qed.

(* ================================================================== *)
(** ** Round trips *)
(* ================================================================== *)





(** X22.  Non-admins.  A logged-in user without the admin flag who calls a
    rule under [@admin_required] is redirected to the shop with "Admin
    access required."; nothing but that flash changes. *)
Theorem non_admins_are_turned_away (e : string) (sf : string -> string)
    (r : Route) (req : Request) (io : IO) (w : World) (u : User.t) :
  session_user w = Some u -> User.is_admin u = false ->
  admin_protected r = true -> allows r (method req) = true ->
  run (dispatch e sf r req io) w =
  (Redirect "items",
   mkWorld (db w) (session w)
           (flashes w ++ [("Admin access required.", "error")]) (outbox w)).
Proof.
  intros H Hna Hp Ha. unfold dispatch, run. rewrite Ha.
  destruct r; try discriminate Hp; cbn [view_of];
    unfold admin, admin_delete_item;
    (rewrite admin_required_denied; [reflexivity|]);
    intros a Hs; congruence.
Qed.

(** X23.  Blank signups.  A signup whose name or password is empty after
    [strip] (missing, empty or whitespace only) is sent back to the form
    with an error and writes nothing; and no signup, accepted or not,
    touches the session or the outbox: signing up does not log in. *)
Theorem signup_rejects_blank_fields (w : World) (req : Request) :
  (method req = POST ->
   Py.strip (form_get req "username" "") = "" \/
   Py.strip (form_get req "password" "") = "" ->
   run (signup req) w =
   (Redirect "signup",
    mkWorld (db w) (session w)
            (flashes w ++ [("Username and password are required.", "error")])
            (outbox w))) /\
  session (snd (run (signup req) w)) = session w /\
  outbox (snd (run (signup req) w)) = outbox w.
Proof.
  split.
  - intros Hm Hblank. rewrite (signup_run w req Hm).
    destruct Hblank as [-> | ->]; cbn [Py.truthy negb orb];
      rewrite ?orb_true_r; reflexivity.
  - destruct (method req) eqn:Hm.
    + unfold run, signup. rewrite Hm. split; reflexivity.
    + rewrite (signup_run w req Hm).
      destruct (negb _ || negb _); [split; reflexivity|].
      destruct (User_by_username _ _); split; reflexivity.
Qed.

(* ================================================================== *)
(** ** The theorems at work, continued *)
(* ================================================================== *)

(** The demo user's shop with two dresses in the cart is a reachable
    world: create the tables, start, log in, add twice. *)
Lemma shop_with_cart_is_reachable (e : string) (sf : string -> string) :
  reachable e sf shop_with_cart.
Proof.
  change shop_with_cart with
    (serve e sf (url_add_to_cart 1) (post []) relay_ok
       (serve e sf (url_add_to_cart 1) (post []) relay_ok
          (serve e sf url_login
             (post [("username", "user"); ("password", "user123")]) relay_ok
             (snd (seed_data 0 empty_world))))).
  repeat apply reach_serve. apply reach_start. apply reach_created.
Qed.

(** Nobody is logged in on the seeded shop: adding to the cart and
    deleting an item are both refused, and nothing is written. *)
Lemma anonymous_requests_are_turned_away_witness :
  session_user seeded = None /\
  fst (run (dispatch "admin@example.com" secure_filename_ascii
              (url_add_to_cart 1) (post []) relay_ok) seeded) = Redirect "login" /\
  fst (run (dispatch "admin@example.com" secure_filename_ascii
              (url_admin_delete 1) (post []) relay_ok) seeded) = Redirect "items" /\
  db (serve "admin@example.com" secure_filename_ascii
        (url_admin_delete 1) (post []) relay_ok seeded) = db seeded.
Proof.
  pose proof (anonymous_requests_are_turned_away "admin@example.com"
                secure_filename_ascii (url_add_to_cart 1) (post []) relay_ok
                seeded eq_refl) as [Hlogin _].
  pose proof (anonymous_requests_are_turned_away "admin@example.com"
                secure_filename_ascii (url_admin_delete 1) (post []) relay_ok
                seeded eq_refl) as [_ [Hadmin [Hdb _]]].
  split; [reflexivity|].
  split; [rewrite (Hlogin eq_refl eq_refl); reflexivity|].
  split; [rewrite (Hadmin eq_refl eq_refl); reflexivity|].
  apply Hdb. discriminate.
Defined.

(** The demo user is no admin: the admin page refuses the POST. *)
Lemma non_admins_are_turned_away_witness :
  session_user shop = Some demo_user /\ User.is_admin demo_user = false /\
  run (dispatch "admin@example.com" secure_filename_ascii url_admin
         (post [("name", "Blue Dress")]) relay_ok) shop
  = (Redirect "items",
     mkWorld (db shop) (session shop)
             (flashes shop ++ [("Admin access required.", "error")]) (outbox shop)).
Proof.
  split; [reflexivity|]. split; [reflexivity|].
  exact (non_admins_are_turned_away "admin@example.com" secure_filename_ascii
           url_admin (post [("name", "Blue Dress")]) relay_ok shop demo_user
           eq_refl eq_refl eq_refl eq_refl).
Defined.

(** The admin adds a dress: the catalog changes, and the theorem names
    the admin behind it. *)
Lemma catalog_changes_only_by_admin_witness :
  items (db (serve "admin@example.com" secure_filename_ascii url_admin
               (post [("name", "Blue Dress")]) relay_ok shop_admin))
  <> items (db shop_admin) /\
  exists a, session_user shop_admin = Some a /\ User.is_admin a = true.
Proof.
  assert (Hch : items (db (serve "admin@example.com" secure_filename_ascii
                             url_admin (post [("name", "Blue Dress")]) relay_ok
                             shop_admin))
                <> items (db shop_admin)).
  { intros E. apply (f_equal (@List.length Item.t)) in E. discriminate E. }
  split; [exact Hch|].
  exact (proj2 (proj2 (catalog_changes_only_by_admin "admin@example.com"
                         secure_filename_ascii url_admin
                         (post [("name", "Blue Dress")]) relay_ok shop_admin Hch))).
Defined.

(** GETs on the shop with a filled cart: the cart page writes nothing,
    and the POST-only rule answers 405. *)
Lemma get_requests_write_nothing_witness :
  method get = GET /\
  db (serve "admin@example.com" secure_filename_ascii url_cart get relay_ok
        shop_with_cart) = db shop_with_cart /\
  run (dispatch "admin@example.com" secure_filename_ascii (url_add_to_cart 1)
         get relay_ok) shop_with_cart = (Abort 405, shop_with_cart).
Proof.
  pose proof (get_requests_write_nothing "admin@example.com"
                secure_filename_ascii url_cart get relay_ok shop_with_cart
                eq_refl) as [Hdb _].
  pose proof (get_requests_write_nothing "admin@example.com"
                secure_filename_ascii (url_add_to_cart 1) get relay_ok
                shop_with_cart eq_refl) as [_ [_ H405]].
  split; [reflexivity|]. split; [apply Hdb; discriminate | exact (H405 eq_refl)].
Defined.




(** The demo user posts the upload form empty, then with a file the
    disk refuses. *)
Lemma send_screenshot_without_a_file_witness :
  session_user shop = Some demo_user /\
  fst (run (send_screenshot "admin@example.com" secure_filename_ascii
              (post []) relay_ok) shop) = Redirect "send_screenshot" /\
  run (send_screenshot "admin@example.com" secure_filename_ascii
         (upload receipt) (mkIO (Some "No space left on device") None)) shop
  = (Raised "No space left on device", shop).
Proof.
  pose proof (send_screenshot_without_a_file "admin@example.com"
                secure_filename_ascii shop demo_user (post []) relay_ok eq_refl)
    as [_ [Hnone _]].
  pose proof (send_screenshot_without_a_file "admin@example.com"
                secure_filename_ascii shop demo_user (upload receipt)
                (mkIO (Some "No space left on device") None) eq_refl)
    as [_ [_ Hsave]].
  split; [reflexivity|]. split.
  - rewrite (Hnone eq_refl (or_introl eq_refl)). reflexivity.
  - refine (Hsave eq_refl receipt _ eq_refl _ eq_refl). discriminate.
Defined.

(** Three adds of the red dress to the demo user's empty cart: one row
    of quantity 3, and a cart page of 3897.0. *)
Lemma add_to_cart_counts_the_adds_witness :
  (session_user shop = Some demo_user /\ method (post []) = POST) /\
  carts (db (serve_all "admin@example.com" secure_filename_ascii
               (repeat (url_add_to_cart 1, post [], relay_ok) 3) shop))
  = [Cart.make 1 2 1 3] /\
  option_map snd
    (viewCart (db (serve_all "admin@example.com" secure_filename_ascii
                     (repeat (url_add_to_cart 1, post [], relay_ok) 3) shop))
              (User.id demo_user))
  = Some 3897%float.
Proof.
  pose proof (add_to_cart_counts_the_adds "admin@example.com"
                secure_filename_ascii shop demo_user 1 _ (post []) relay_ok 2
                eq_refl eq_refl eq_refl eq_refl) as [Hc [_ [_ Hv]]].
  split; [split; reflexivity|]. split; [exact Hc|].
  rewrite (Hv eq_refl 3897%float); [reflexivity|].
  vm_compute. reflexivity.
Defined.



(** The same shop after the demo user's upload went through. *)
Lemma shop_after_upload_is_reachable (e : string) (sf : string -> string) :
  reachable e sf (serve e sf url_send_screenshot (upload receipt) relay_ok
                        shop_with_cart).
Proof. apply reach_serve. apply shop_with_cart_is_reachable. Qed.

(** The invariants in the shop with a filled cart. *)
Lemma rowids_unique_and_positive_witness :
  pk_unique (db shop_with_cart) /\ positive_ids (db shop_with_cart).
Proof.
  exact (proj2 (proj2 rowids_unique_and_positive) "admin@example.com"
           secure_filename_ascii _
           (shop_with_cart_is_reachable "admin@example.com" secure_filename_ascii)).
Defined.

Lemma quantities_stay_positive_witness :
  quantities_positive (db shop_with_cart).
Proof.
  exact (proj1 (proj2 (proj2 quantities_stay_positive)) "admin@example.com"
           secure_filename_ascii _
           (shop_with_cart_is_reachable "admin@example.com" secure_filename_ascii)).
Defined.

Lemma references_stay_resolved_witness :
  references_resolve (db shop_with_cart).
Proof.
  exact (proj1 (proj2 (proj2 references_stay_resolved)) "admin@example.com"
           secure_filename_ascii _
           (shop_with_cart_is_reachable "admin@example.com" secure_filename_ascii)).
Defined.

Lemma usernames_stay_ok_witness : usernames_ok (db shop_with_cart).
Proof.
  exact (proj2 (proj2 usernames_stay_ok) "admin@example.com"
           secure_filename_ascii _
           (shop_with_cart_is_reachable "admin@example.com" secure_filename_ascii)).
Defined.

Lemma admins_are_named_admin_witness : admins_by_name (db shop_with_cart).
Proof.
  exact (proj2 (proj2 admins_are_named_admin) "admin@example.com"
           secure_filename_ascii _
           (shop_with_cart_is_reachable "admin@example.com" secure_filename_ascii)).
Defined.

Lemma ledger_keeps_one_entry_per_pair_witness :
  one_entry_per_pair (db shop_with_cart).
Proof.
  exact (proj2 (proj2 ledger_keeps_one_entry_per_pair) "admin@example.com"
           secure_filename_ascii _
           (shop_with_cart_is_reachable "admin@example.com" secure_filename_ascii)).
Defined.

(** One message has left, and it is as the invariant says. *)
Lemma mail_goes_to_the_admin_only_witness :
  List.length (outbox (serve "admin@example.com" secure_filename_ascii
                         url_send_screenshot (upload receipt) relay_ok
                         shop_with_cart)) = 1%nat /\
  mail_ok "admin@example.com"
    (serve "admin@example.com" secure_filename_ascii url_send_screenshot
           (upload receipt) relay_ok shop_with_cart).
Proof.
  split; [reflexivity|].
  exact (proj2 (proj2 (mail_goes_to_the_admin_only "admin@example.com"
                         secure_filename_ascii)) _
           (shop_after_upload_is_reachable "admin@example.com"
              secure_filename_ascii)).
Defined.
